(** * fdroid-bridge: metadata store and index builder

    A shallow embedding of [fdroid_bridge/metadata.py], [fdroid_bridge/index.py]
    and [fdroid_bridge/errors.py], with the properties of the specification
    stated and proved (or refuted) over it.

    Conventions.
    - A Python [dict] with string keys is a [gmap string json]; dictionary
      equality in Python ignores insertion order, as does equality of [gmap].
    - Exceptions are values of [exn]; a function that can raise returns a
      [result].
    - Functions that touch the file system or start a process run in the
      monad [M], which threads a [world] and may raise.
    - [json.dumps], [json.loads] and [subprocess.run] belong to the Python
      standard library, not to this repository: they are the fields of the
      class [PyLib], and every property holds for any instance of it. *)

From Stdlib Require Import ZArith String List Ascii.
From Stdlib Require Import Floats.SpecFloat.
From stdpp Require Import gmap strings list fin_maps pretty.

Set Warnings "-register-all".
Set Default Proof Using "Type".

Local Open Scope string_scope.
Local Open Scope Z_scope.
Local Open Scope list_scope.

(** ** Python values that JSON can carry *)

Inductive json : Type :=
  | JNull
  | JBool (b : bool)
  | JInt (z : Z)
  | JFloat (f : spec_float)
  | JStr (s : string)
  | JList (l : list json)
  | JObj (m : gmap string json).

(** [bool(v)]: the truth value Python gives [v] in [if] and [not]. *)
Definition truthy (v : json) : bool :=
  match v with
  | JNull => false
  | JBool b => b
  | JInt z => negb (z =? 0)
  | JFloat (S754_zero _) => false
  | JFloat _ => true
  | JStr s => negb (String.eqb s EmptyString)
  | JList l => match l with [] => false | _ => true end
  | JObj m => negb (bool_decide (m = ∅))
  end.

(** [isinstance(v, int)]: [bool] is a subclass of [int]. *)
Definition isinstance_int (v : json) : bool :=
  match v with
  | JInt _ | JBool _ => true
  | _ => false
  end.

(** [v < 0] for a value that passed [isinstance(v, int)]. *)
Definition int_lt_zero (v : json) : bool :=
  match v with
  | JInt z => z <? 0
  | _ => false
  end.

(** [needle in hay] on Python strings. *)
Fixpoint str_in (needle hay : string) : bool :=
  String.prefix needle hay ||
  match hay with
  | EmptyString => false
  | String _ hay' => str_in needle hay'
  end.

(** ** metadata.py: [validate_metadata] *)

Module Metadata.

Definition required_fields : list string :=
  ["name"; "summary"; "description"; "version_code"; "version_name"].

Definition missing_msg (field : string) : string :=
  "Missing required field: " +:+ field.

Definition empty_msg (field : string) : string :=
  "Empty required field: " +:+ field.

(** One iteration of [for field in required_fields]. *)
Definition check_field (metadata : gmap string json)
    (errors : list string) (field : string) : list string :=
  match metadata !! field with
  | None => errors ++ [missing_msg field]
  | Some v => if negb (truthy v) then errors ++ [empty_msg field] else errors
  end.

(** The [if "version_code" in metadata] block. *)
Definition check_version_code (metadata : gmap string json)
    (errors : list string) : list string :=
  match metadata !! "version_code" with
  | Some v =>
      if negb (isinstance_int v) then
        errors ++ ["version_code must be an integer"]
      else if int_lt_zero v then
        errors ++ ["version_code must be non-negative"]
      else errors
  | None => errors
  end.

Definition validate_metadata (metadata : gmap string json) : list string :=
  let errors := [] in
  let errors := fold_left (check_field metadata) required_fields errors in
  let errors := check_version_code metadata errors in
  errors.

(** The messages one required field contributes, without the accumulator. *)
Definition field_errors (metadata : gmap string json) (field : string)
    : list string :=
  check_field metadata [] field.

(** A message produced by the "missing" branch. *)
Definition is_missing_msg (e : string) : bool :=
  String.prefix "Missing required field: " e.

Definition is_missing (metadata : gmap string json) (field : string) : bool :=
  bool_decide (metadata !! field = None).

End Metadata.

(** ** errors.py: the error taxonomy, with the built-in classes the code
    meets *)

Inductive exn_class : Type :=
  | Exception
  | BridgeError
  | MetadataError
  | MetadataNotFoundError
  | MetadataParseError
  | IndexGenerationError
  | ValueError
  | JSONDecodeError
  | UnicodeError
  | UnicodeDecodeError
  | UnicodeEncodeError
  | SubprocessError
  | OSError
  | KeyError
  | TypeError.

#[global] Instance exn_class_eq_dec : EqDecision exn_class.
Proof. solve_decision. Defined.

(** The direct base class; [Exception] is the top of what is modelled. *)
Definition base_class (c : exn_class) : option exn_class :=
  match c with
  | Exception => None
  | BridgeError => Some Exception
  | MetadataError => Some BridgeError
  | MetadataNotFoundError => Some MetadataError
  | MetadataParseError => Some MetadataError
  | IndexGenerationError => Some BridgeError
  | ValueError => Some Exception
  | JSONDecodeError => Some ValueError
  | UnicodeError => Some ValueError
  | UnicodeDecodeError => Some UnicodeError
  | UnicodeEncodeError => Some UnicodeError
  | SubprocessError => Some Exception
  | OSError => Some Exception
  | KeyError => Some Exception
  | TypeError => Some Exception
  end.

Fixpoint issubclass_fuel (fuel : nat) (c d : exn_class) : bool :=
  bool_decide (c = d) ||
  match fuel, base_class c with
  | S fuel', Some b => issubclass_fuel fuel' b d
  | _, _ => false
  end.

(** [issubclass(c, d)]; no chain of bases is longer than four. *)
Definition issubclass (c d : exn_class) : bool := issubclass_fuel 4 c d.

(** An exception object: its class, [str(e)] and the [__cause__] set by
    [raise ... from e]. *)
Inductive exn : Type :=
  | Exn (cls : exn_class) (msg : string) (cause : option exn).

Definition exn_cls (e : exn) : exn_class := let 'Exn c _ _ := e in c.
Definition exn_msg (e : exn) : string := let 'Exn _ m _ := e in m.
Definition exn_cause (e : exn) : option exn := let 'Exn _ _ c := e in c.

(** [isinstance(e, d)], the test an [except d] clause makes. *)
Definition isinstance_exn (e : exn) (d : exn_class) : bool :=
  issubclass (exn_cls e) d.

Inductive result (A : Type) : Type :=
  | Ok (a : A)
  | Raise (e : exn).
Arguments Ok {A} a.
Arguments Raise {A} e.

(** ** pathlib and the file system *)

(** A path is its tuple of [parts], as [PurePosixPath.parts] gives it: an
    absolute path starts with the part ["/"]. *)
Abbreviation Path := (list string).

Definition slash : ascii := "/"%char.

(** The pieces of [s] between slashes. *)
Fixpoint segments (s : string) : list string :=
  match s with
  | EmptyString => [EmptyString]
  | String c s' =>
      if Ascii.eqb c slash then EmptyString :: segments s'
      else match segments s' with
           | h :: t => String c h :: t
           | [] => [String c EmptyString]
           end
  end.

(** The string has no slash: it names one part of a path. *)
Fixpoint no_slash (s : string) : bool :=
  match s with
  | EmptyString => true
  | String c s' => negb (Ascii.eqb c slash) && no_slash s'
  end.

Definition keep_segment (seg : string) : bool :=
  negb (String.eqb seg EmptyString) && negb (String.eqb seg ".").

(** [PurePosixPath(s).parts]: empty and ["."] segments are dropped. *)
Definition parse_path (s : string) : Path :=
  (if String.prefix "/" s then ["/"] else []) ++ List.filter keep_segment (segments s).

Definition is_absolute (p : Path) : bool :=
  match p with
  | root :: _ => String.eqb root "/"
  | [] => false
  end.

(** [p / s]: an absolute right operand replaces the left one. *)
Definition joinpath (p : Path) (s : string) : Path :=
  let q := parse_path s in
  if is_absolute q then q else p ++ q.

Infix "//" := joinpath (at level 40, left associativity).

Definition parent (p : Path) : Path :=
  match p with
  | [_] => if is_absolute p then p else []
  | _ => removelast p
  end.

Fixpoint join_parts (ps : list string) : string :=
  match ps with
  | [] => EmptyString
  | [x] => x
  | x :: rest => x +:+ "/" +:+ join_parts rest
  end.

(** [str(p)], which an f-string uses for [{p}]. *)
Definition path_str (p : Path) : string :=
  match p with
  | [] => "."
  | root :: rest =>
      if String.eqb root "/" then "/" +:+ join_parts rest else join_parts p
  end.

Inductive node : Type :=
  | File (content : string)
  | Dir.

(** The state of the file system: what is found at each path. Paths are
    compared as written (no symbolic links, no resolution of [".."]);
    a file holds bytes. It has entries only at paths the operating system
    can represent, which [mkdir_parents] and [write_text] keep so: for any
    other path [exists()] is false, as the absent entry says. *)
Abbreviation filesystem := (gmap (list string) node).

(** ** Text and bytes

    A Python [str] is represented by its UTF-8 encoding, in which a lone
    surrogate takes the three bytes that the [surrogatepass] handler gives
    it (ED A0 80 to ED BF BF). Encoding a [str] as UTF-8 and decoding bytes
    as UTF-8 then leave the bytes as they are and can only fail. *)

Definition byte_in (lo hi : nat) (c : ascii) : bool :=
  (lo <=? nat_of_ascii c)%nat && (nat_of_ascii c <=? hi)%nat.

Definition continuation (c : ascii) : bool := byte_in 128 191 c.

(** The second byte that may follow the first byte [c0] of a sequence of
    three, where [after_ed] says what may follow ED. *)
Definition second_of_three (after_ed : ascii -> bool) (c0 c1 : ascii) : bool :=
  if byte_in 224 224 c0 then byte_in 160 191 c1
  else if byte_in 237 237 c0 then after_ed c1
  else continuation c1.

Definition second_of_four (c0 c1 : ascii) : bool :=
  if byte_in 240 240 c0 then byte_in 144 191 c1
  else if byte_in 244 244 c0 then byte_in 128 143 c1
  else continuation c1.

(** The bytes are a sequence of well-formed UTF-8 sequences. *)
Fixpoint utf8_scan (after_ed : ascii -> bool) (s : string) : bool :=
  match s with
  | EmptyString => true
  | String c0 s1 =>
      if byte_in 0 127 c0 then utf8_scan after_ed s1
      else
        match s1 with
        | EmptyString => false
        | String c1 s2 =>
            if byte_in 194 223 c0 then continuation c1 && utf8_scan after_ed s2
            else
              match s2 with
              | EmptyString => false
              | String c2 s3 =>
                  if byte_in 224 239 c0 then
                    second_of_three after_ed c0 c1 && continuation c2 &&
                    utf8_scan after_ed s3
                  else
                    match s3 with
                    | EmptyString => false
                    | String c3 s4 =>
                        byte_in 240 244 c0 && second_of_four c0 c1 &&
                        continuation c2 && continuation c3 &&
                        utf8_scan after_ed s4
                    end
              end
        end
  end.

(** Strict UTF-8, without surrogates: the bytes that
    [bytes.decode("utf-8")] accepts, and the strings that
    [str.encode("utf-8")] accepts. *)
Definition valid_utf8 (s : string) : bool := utf8_scan (byte_in 128 159) s.

(** What [os.fsencode] accepts: UTF-8 with the [surrogateescape] handler,
    which also takes the surrogates U+DC80 to U+DCFF (ED B2 80 to
    ED B3 BF). *)
Definition fs_encodable (s : string) : bool :=
  utf8_scan (fun c => byte_in 128 159 c || byte_in 178 179 c) s.

Fixpoint has_nul (s : string) : bool :=
  match s with
  | EmptyString => false
  | String c s' => byte_in 0 0 c || has_nul s'
  end.

(** The exception with which the operating system interface refuses a
    path before any system call: a part that cannot be encoded, or one
    with a NUL character. *)
Definition os_path_error (p : list string) : option exn :=
  if negb (forallb fs_encodable p) then
    Some (Exn UnicodeEncodeError
            "'utf-8' codec can't encode character: surrogates not allowed" None)
  else if existsb has_nul p then
    Some (Exn ValueError "embedded null byte" None)
  else None.

(** ** The world and the monad of effects *)

Inductive run_outcome : Type :=
  | Completed (returncode : Z) (stdout stderr : string) (fs' : filesystem)
  | RunRaised (e : exn).

(** The Python standard library, as far as the code calls it.
    - [json_dumps v] is [json.dumps(v, indent=2, ensure_ascii=False)];
    - [json_loads s] is [json.loads(s)]: [inr v] for the decoded value,
      [inl diag] when it raises [JSONDecodeError] with [str(e) = diag];
    - [subprocess_run args cwd fs] is what
      [subprocess.run(args, cwd=cwd, capture_output=True, text=True,
      check=False)] does on the file system [fs]: the process runs to its
      end, or the call itself raises. *)
Class PyLib : Type := {
  json_dumps : json -> string;
  json_loads : string -> string + json;
  subprocess_run : list string -> Path -> filesystem -> run_outcome
}.

Record world : Type := World {
  fs : filesystem;
  launched : list (list string * Path)
}.

Definition M (A : Type) : Type := world -> result A * world.

Definition ret {A} (a : A) : M A := fun w => (Ok a, w).
Definition raise {A} (e : exn) : M A := fun w => (Raise e, w).
Definition bind {A B} (m : M A) (k : A -> M B) : M B :=
  fun w =>
    match m w with
    | (Ok a, w') => k a w'
    | (Raise e, w') => (Raise e, w')
    end.

Declare Scope py_scope.
Delimit Scope py_scope with py.
Notation "x <- m ;; k" := (bind m (fun x => k))
  (at level 100, m at next level, right associativity) : py_scope.
Notation "m ;;; k" := (bind m (fun _ => k))
  (at level 100, right associativity) : py_scope.

(** [try: body except ...]: [handler e] is the first clause that matches
    [e], if any. *)
Definition try_except {A} (body : M A) (handler : exn -> option (M A)) : M A :=
  fun w =>
    match body w with
    | (Raise e, w') =>
        match handler e with
        | Some h => h w'
        | None => (Raise e, w')
        end
    | r => r
    end.

(** [Path.exists()]: something is found at the path. For a path the
    operating system cannot represent it is false, and the file system has
    no entry there. *)
Definition path_exists (p : Path) : M bool :=
  fun w => (Ok (bool_decide (is_Some (fs w !! p))), w).

(** [Path.read_text(encoding="utf-8")], which the code calls only on a
    path for which [exists()] was true: bytes that are not UTF-8 raise
    [UnicodeDecodeError]. Text mode also reads a carriage return as a line
    feed; both are white space to [json.loads], the only reader of the
    text, and the translation is counted as part of [json_loads]. *)
Definition read_text (p : Path) : M string :=
  fun w =>
    match fs w !! p with
    | Some (File content) =>
        if valid_utf8 content then (Ok content, w)
        else
          (Raise (Exn UnicodeDecodeError
                    "'utf-8' codec can't decode byte: invalid start byte" None),
           w)
    | Some Dir =>
        (Raise (Exn OSError ("Is a directory: " +:+ path_str p) None), w)
    | None =>
        (Raise (Exn OSError ("No such file or directory: " +:+ path_str p) None), w)
    end.

(** [Path.write_text(content, encoding="utf-8")]: [open(p, "w")], for
    which the path must be one the operating system accepts, the parent a
    directory and [p] not one, then the write. Opening makes the file
    empty; text that cannot be encoded (a lone surrogate) then raises
    [UnicodeEncodeError] and the file stays empty. *)
Definition write_text (p : Path) (content : string) : M unit :=
  fun w =>
    match os_path_error p with
    | Some e => (Raise e, w)
    | None =>
        match fs w !! p, fs w !! parent p with
        | Some Dir, _ =>
            (Raise (Exn OSError ("Is a directory: " +:+ path_str p) None), w)
        | _, Some Dir =>
            if valid_utf8 content then
              (Ok tt, World (<[p := File content]> (fs w)) (launched w))
            else
              (Raise (Exn UnicodeEncodeError
                        "'utf-8' codec can't encode character: surrogates not allowed"
                        None),
               World (<[p := File EmptyString]> (fs w)) (launched w))
        | _, _ =>
            (Raise (Exn OSError ("No such file or directory: " +:+ path_str p)
                      None), w)
        end
    end.

(** [Path.mkdir(parents=True, exist_ok=True)], on the parts in reverse: an
    existing directory is accepted, a file in the way is an error, a missing
    parent is made first unless the path is its own parent. *)
Fixpoint mkdir_rev (fsys : filesystem) (rp : list string) : result filesystem :=
  match fsys !! rev rp with
  | Some Dir => Ok fsys
  | Some (File _) =>
      Raise (Exn OSError ("File exists: " +:+ path_str (rev rp)) None)
  | None =>
      match rp with
      | [] => Raise (Exn OSError "No such file or directory: ." None)
      | _ :: rp' =>
          if bool_decide (parent (rev rp) = rev rp) then
            Raise (Exn OSError
                     ("No such file or directory: " +:+ path_str (rev rp)) None)
          else
            match mkdir_rev fsys rp' with
            | Ok fsys' => Ok (<[rev rp := Dir]> fsys')
            | Raise e => Raise e
            end
      end
  end.

Definition mkdir_parents (p : Path) : M unit :=
  fun w =>
    match os_path_error p with
    | Some e => (Raise e, w)
    | None =>
        match mkdir_rev (fs w) (rev p) with
        | Ok fsys' => (Ok tt, World fsys' (launched w))
        | Raise e => (Raise e, w)
        end
    end.

Definition loads `{PyLib} (s : string) : M json :=
  match json_loads s with
  | inr v => ret v
  | inl diag => raise (Exn JSONDecodeError diag None)
  end.

(** The call is recorded in [launched] whether or not the process starts. *)
Definition run `{PyLib} (args : list string) (cwd : Path)
    : M (Z * string * string) :=
  fun w =>
    let log := launched w ++ [(args, cwd)] in
    match subprocess_run args cwd (fs w) with
    | Completed rc out err fs' => (Ok (rc, out, err), World fs' log)
    | RunRaised e => (Raise e, World (fs w) log)
    end.

(** ** metadata.py: [load_metadata] and [save_metadata] *)

Module MetadataIO.

Definition metadata_path (metadata_dir : Path) (package_id : string) : Path :=
  metadata_dir // (package_id +:+ ".json").

Definition not_found_msg (package_id : string) : string :=
  "Metadata not found: " +:+ package_id.

Definition parse_error_msg (package_id diag : string) : string :=
  "Invalid metadata for " +:+ package_id +:+ ": " +:+ diag.

Definition load_metadata `{PyLib} (metadata_dir : Path) (package_id : string)
    : M json :=
  (let metadata_path := metadata_path metadata_dir package_id in
   present <- path_exists metadata_path ;;
   if negb present then
     raise (Exn MetadataNotFoundError (not_found_msg package_id) None)
   else
     try_except
       (content <- read_text metadata_path ;;
        loads content)
       (fun e =>
          if isinstance_exn e JSONDecodeError then
            Some (raise (Exn MetadataParseError
                           (parse_error_msg package_id (exn_msg e)) (Some e)))
          else None))%py.

Definition save_metadata `{PyLib} (metadata_dir : Path) (package_id : string)
    (metadata : gmap string json) : M unit :=
  (mkdir_parents metadata_dir ;;;
   let metadata_path := metadata_path metadata_dir package_id in
   let content := json_dumps (JObj metadata) in
   write_text metadata_path content)%py.

End MetadataIO.

(** ** index.py *)

Module Index.

Definition fdroid_args : list string :=
  ["fdroid"; "update"; "--pretty"; "--nosign"].

Definition index_path (repo_dir : Path) : Path :=
  repo_dir // "repo" // "index-v2.json".

Definition generation_error (msg : string) (cause : option exn) : exn :=
  Exn IndexGenerationError msg cause.

Definition dir_not_found_msg (repo_dir : Path) : string :=
  "Repository directory not found: " +:+ path_str repo_dir.

(** The two [except] clauses of [generate_index], in their order. *)
Definition generate_handlers (e : exn) : option (M json) :=
  if isinstance_exn e SubprocessError then
    Some (raise (generation_error
                   ("Failed to run fdroidserver: " +:+ exn_msg e) (Some e)))
  else if isinstance_exn e JSONDecodeError then
    Some (raise (generation_error
                   ("Failed to parse generated index: " +:+ exn_msg e) (Some e)))
  else None.

(** [output_path] is [None] or a path; a path object is always true. *)
Definition generate_index `{PyLib} (repo_dir : Path) (output_path : option Path)
    : M json :=
  (present <- path_exists repo_dir ;;
   if negb present then
     raise (generation_error (dir_not_found_msg repo_dir) None)
   else
     try_except
       (completed <- run fdroid_args repo_dir ;;
        let '(returncode, _, stderr) := completed in
        if negb (returncode =? 0) then
          raise (generation_error ("fdroid update failed: " +:+ stderr) None)
        else
          let index_path := index_path repo_dir in
          generated <- path_exists index_path ;;
          if negb generated then
            raise (generation_error "Index file not generated" None)
          else
            index_content <- read_text index_path ;;
            index_data <- loads index_content ;;
            match output_path with
            | Some out => write_text out (json_dumps index_data)
            | None => ret tt
            end ;;;
            ret index_data)
       generate_handlers)%py.

(** [d.get(key, default)]. *)
Definition dict_get (d : gmap string json) (key : string) (dflt : json) : json :=
  default dflt (d !! key).

Definition localized (v : json) : json := JObj {["en-US" := v]}.

Definition _format_app_entry (app : gmap string json) : json :=
  JObj (<["name" := localized (dict_get app "name" (JStr EmptyString))]>
       (<["summary" := localized (dict_get app "summary" (JStr EmptyString))]>
       (<["description" := localized (dict_get app "description" (JStr EmptyString))]>
       (<["license" := dict_get app "license" (JStr "Unknown")]>
       (<["categories" := dict_get app "categories" (JList [])]>
       (<["suggestedVersionCode" := dict_get app "version_code" (JInt 0)]> ∅)))))).

(** [app["package_id"]] used as a key of the result. A missing key raises
    [KeyError]; lists and dicts are unhashable and raise [TypeError]. The
    result is declared [dict[str, Any]]: a package id that is another
    non-string value lies outside that type and the model stops there, also
    with [TypeError]. *)
Definition package_key (app : gmap string json) : result string :=
  match app !! "package_id" with
  | None => Raise (Exn KeyError "'package_id'" None)
  | Some (JStr s) => Ok s
  | Some _ => Raise (Exn TypeError "package_id is not a string" None)
  end.

(** [{app["package_id"]: value(app) for app in apps}], filling [acc] from
    left to right; the key is evaluated before the value. *)
Fixpoint dict_comprehension (value : gmap string json -> json)
    (apps : list (gmap string json)) (acc : gmap string json)
    : result (gmap string json) :=
  match apps with
  | [] => Ok acc
  | app :: rest =>
      match package_key app with
      | Ok k => dict_comprehension value rest (<[k := value app]> acc)
      | Raise e => Raise e
      end
  end.

Definition schema_version : Z := 21.

(** [timestamp] is the value of [int(time.time() * 1000)], read from the
    clock by the caller of this model. *)
Definition create_minimal_index (timestamp : Z)
    (repo_name repo_description : string) (apps : list (gmap string json))
    : result json :=
  let repo :=
    JObj (<["name" := localized (JStr repo_name)]>
         (<["description" := localized (JStr repo_description)]>
         (<["timestamp" := JInt timestamp]>
         (<["version" := JInt schema_version]> ∅)))) in
  match dict_comprehension _format_app_entry apps ∅ with
  | Raise e => Raise e
  | Ok apps_map =>
      match dict_comprehension (fun _ => JList []) apps ∅ with
      | Raise e => Raise e
      | Ok packages_map =>
          Ok (JObj (<["repo" := repo]>
                   (<["apps" := JObj apps_map]>
                   (<["packages" := JObj packages_map]> ∅))))
      end
  end.

End Index.

(** ** Reading the fields of a JSON value *)

(** [v[key]] for an object [v]. *)
Definition obj_get (key : string) (v : json) : option json :=
  match v with
  | JObj m => m !! key
  | _ => None
  end.

(** [v[k1][k2]...]. *)
Fixpoint get_in (keys : list string) (v : json) : option json :=
  match keys with
  | [] => Some v
  | k :: rest =>
      match obj_get k v with
      | Some v' => get_in rest v'
      | None => None
      end
  end.

(** The keys of an object. *)
Definition obj_keys (v : json) : gset string :=
  match v with
  | JObj m => dom m
  | _ => ∅
  end.

(** ** Outcomes of a run *)

(** The run raised an exception of class [c] (or of a subclass). *)
Definition raises {A} (r : result A * world) (c : exn_class) : Prop :=
  exists e, r.1 = Raise e /\ isinstance_exn e c = true.

(** The run raised, and every message it raised with mentions [text]. *)
Definition raises_mentioning {A} (r : result A * world) (c : exn_class)
    (text : string) : Prop :=
  exists e, r.1 = Raise e /\ isinstance_exn e c = true /\
            str_in text (exn_msg e) = true.

(** The record has a [package_id] that is a string. *)
Definition has_package_id (app : gmap string json) : bool :=
  match app !! "package_id" with
  | Some (JStr _) => true
  | _ => false
  end.

(** ** A small JSON reader and writer

    Used to instantiate the codec of [PyLib] in examples. It covers [null],
    booleans, integers, strings without escapes, arrays and objects; the
    writer puts a float as [NaN] and the reader does not read it back. *)

Module MiniJson.

Definition dquote : ascii := "034"%char.

Definition quoted (s : string) : string :=
  String dquote (s +:+ String dquote EmptyString).

Fixpoint sep_by (sep : string) (items : list string) : string :=
  match items with
  | [] => EmptyString
  | [x] => x
  | x :: rest => x +:+ sep +:+ sep_by sep rest
  end.

Fixpoint write (v : json) : string :=
  match v with
  | JNull => "null"
  | JBool true => "true"
  | JBool false => "false"
  | JInt z => pretty z
  | JFloat _ => "NaN"
  | JStr s => quoted s
  | JList l => "[" +:+ sep_by ", " (map write l) +:+ "]"
  | JObj m =>
      "{" +:+ sep_by ", "
                (map (fun kv => quoted kv.1 +:+ ": " +:+ kv.2)
                     (map_to_list (write <$> m))) +:+ "}"
  end.

Definition is_space (c : ascii) : bool :=
  Ascii.eqb c " "%char || Ascii.eqb c "010"%char ||
  Ascii.eqb c "013"%char || Ascii.eqb c "009"%char.

Fixpoint skip_ws (s : string) : string :=
  match s with
  | String c s' => if is_space c then skip_ws s' else s
  | EmptyString => s
  end.

Fixpoint strip (p s : string) : option string :=
  match p, s with
  | EmptyString, _ => Some s
  | String a p', String b s' => if Ascii.eqb a b then strip p' s' else None
  | _, _ => None
  end.

(** The characters up to the closing quote; escapes are not read. *)
Fixpoint read_chars (s : string) : option (string * string) :=
  match s with
  | EmptyString => None
  | String c s' =>
      if Ascii.eqb c dquote then Some (EmptyString, s')
      else if Ascii.eqb c "\"%char then None
      else match read_chars s' with
           | Some (body, rest) => Some (String c body, rest)
           | None => None
           end
  end.

Definition digit_of (c : ascii) : option Z :=
  let n := nat_of_ascii c in
  if (48 <=? n)%nat && (n <=? 57)%nat then Some (Z.of_nat (n - 48)) else None.

Fixpoint read_digits (acc : Z) (s : string) : Z * string :=
  match s with
  | String c s' =>
      match digit_of c with
      | Some d => read_digits (10 * acc + d) s'
      | None => (acc, s)
      end
  | EmptyString => (acc, s)
  end.

Definition starts_digit (s : string) : bool :=
  match s with
  | String c _ => bool_decide (is_Some (digit_of c))
  | EmptyString => false
  end.

Fixpoint read_value (fuel : nat) (s : string) : option (json * string) :=
  match fuel with
  | O => None
  | S fuel' =>
      let s := skip_ws s in
      match strip "null" s, strip "true" s, strip "false" s with
      | Some r, _, _ => Some (JNull, r)
      | _, Some r, _ => Some (JBool true, r)
      | _, _, Some r => Some (JBool false, r)
      | _, _, _ =>
      match s with
      | String c r =>
          if Ascii.eqb c dquote then
            match read_chars r with
            | Some (body, r') => Some (JStr body, r')
            | None => None
            end
          else if Ascii.eqb c "-"%char then
            if starts_digit r then
              let '(n, r') := read_digits 0 r in Some (JInt (- n), r')
            else None
          else if starts_digit s then
            let '(n, r') := read_digits 0 s in Some (JInt n, r')
          else if Ascii.eqb c "["%char then
            match strip "]" (skip_ws r) with
            | Some r' => Some (JList [], r')
            | None =>
                match read_items fuel' r with
                | Some (items, r') => Some (JList items, r')
                | None => None
                end
            end
          else if Ascii.eqb c "{"%char then
            match strip "}" (skip_ws r) with
            | Some r' => Some (JObj ∅, r')
            | None =>
                match read_members fuel' r with
                | Some (members, r') => Some (JObj (list_to_map members), r')
                | None => None
                end
            end
          else None
      | EmptyString => None
      end
      end
  end
with read_items (fuel : nat) (s : string) : option (list json * string) :=
  match fuel with
  | O => None
  | S fuel' =>
      match read_value fuel' s with
      | Some (v, r) =>
          let r := skip_ws r in
          match strip "," r, strip "]" r with
          | Some r', _ =>
              match read_items fuel' r' with
              | Some (vs, r'') => Some (v :: vs, r'')
              | None => None
              end
          | _, Some r' => Some ([v], r')
          | _, _ => None
          end
      | None => None
      end
  end
with read_members (fuel : nat) (s : string)
    : option (list (string * json) * string) :=
  match fuel with
  | O => None
  | S fuel' =>
      match strip (String dquote EmptyString) (skip_ws s) with
      | Some r =>
          match read_chars r with
          | Some (key, r) =>
              match strip ":" (skip_ws r) with
              | Some r =>
                  match read_value fuel' r with
                  | Some (v, r) =>
                      let r := skip_ws r in
                      match strip "," r, strip "}" r with
                      | Some r', _ =>
                          match read_members fuel' r' with
                          | Some (kvs, r'') => Some ((key, v) :: kvs, r'')
                          | None => None
                          end
                      | _, Some r' => Some ([(key, v)], r')
                      | _, _ => None
                      end
                  | None => None
                  end
              | None => None
              end
          | None => None
          end
      | None => None
      end
  end.

Definition read (s : string) : string + json :=
  match read_value (S (String.length s)) s with
  | Some (v, r) =>
      match skip_ws r with
      | EmptyString => inr v
      | _ => inl "Extra data"
      end
  | None => inl "Expecting value"
  end.

End MiniJson.

(** ** Concrete libraries and worlds for the examples *)

Module Examples.

(** A machine on which the [fdroid] executable is not installed:
    [subprocess.run] raises [FileNotFoundError], a subclass of [OSError]. *)
Definition no_tool_lib : PyLib := {|
  json_dumps := MiniJson.write;
  json_loads := MiniJson.read;
  subprocess_run := fun _ _ _ =>
    RunRaised (Exn OSError "[Errno 2] No such file or directory: 'fdroid'" None)
|}.

(** A tool that writes [content] to the index file and exits with [rc]. *)
Definition writing_tool_lib (rc : Z) (err content : string) : PyLib := {|
  json_dumps := MiniJson.write;
  json_loads := MiniJson.read;
  subprocess_run := fun _ cwd fsys =>
    Completed rc EmptyString err
      (<[Index.index_path cwd := File content]>
         (<[cwd // "repo" := Dir]> fsys))
|}.

Definition empty_world : world := World {[ [] := Dir ]} [].

Definition repo_world : world :=
  World (<[ ["srv"; "fdroid"] := Dir ]> (<[ ["srv"] := Dir ]> {[ [] := Dir ]})) [].

Definition test_app : gmap string json :=
  <["name" := JStr "Test App"]> (<["version_code" := JInt 1]> ∅).

Definition valid_record (version_code : json) : gmap string json :=
  <["name" := JStr "Test"]>
  (<["summary" := JStr "Summary"]>
  (<["description" := JStr "Description"]>
  (<["version_code" := version_code]>
  (<["version_name" := JStr "1.0"]> ∅)))).

Definition app_one : gmap string json :=
  <["package_id" := JStr "dk.test.app1"]>
  (<["name" := JStr "App One"]>
  (<["summary" := JStr "First app"]>
  (<["version_code" := JInt 1]> ∅))).

(** A second record under the package id of [app_one]. *)
Definition app_one_again : gmap string json :=
  <["package_id" := JStr "dk.test.app1"]>
  (<["name" := JStr "App One, again"]> ∅).

Definition app_two : gmap string json :=
  <["package_id" := JStr "dk.test.app2"]>
  (<["name" := JStr "App Two"]>
  (<["license" := JStr "MIT"]> ∅)).

End Examples.

(** ** Further notions and examples *)

(** The package id under which a record is entered, when it has one. *)
Definition package_id_of (app : gmap string json) : option string :=
  match Index.package_key app with
  | Ok k => Some k
  | Raise _ => None
  end.

Definition package_ids (apps : list (gmap string json)) : list string :=
  omap package_id_of apps.

Module MoreExamples.

(** A [subprocess.run] that raises [TimeoutExpired], a [SubprocessError]. *)
Definition timeout_lib : PyLib := {|
  json_dumps := MiniJson.write;
  json_loads := MiniJson.read;
  subprocess_run := fun _ _ _ =>
    RunRaised (Exn SubprocessError "Command timed out after 5 seconds" None)
|}.

(** A tool that exits with [rc] and writes nothing. *)
Definition silent_tool_lib (rc : Z) (err : string) : PyLib := {|
  json_dumps := MiniJson.write;
  json_loads := MiniJson.read;
  subprocess_run := fun _ _ fsys => Completed rc EmptyString err fsys
|}.

(** A record with an empty [name], as in the test of empty fields. *)
Definition unnamed_record : gmap string json :=
  <["name" := JStr EmptyString]> (Examples.valid_record (JInt 1)).

(** [valid_record] with fields that are not required. *)
Definition licensed_record : gmap string json :=
  <["license" := JStr "MIT"]>
  (<["categories" := JList [JStr "Office"]]> (Examples.valid_record (JInt 1))).

Definition other_app : gmap string json :=
  <["name" := JStr "Other App"]> ∅.

(** A metadata directory that already holds the file of one package. *)
Definition store_world : world :=
  World (<[ ["metadata"; "dk.other.json"] := File "{}" ]>
           (<[ ["metadata"] := Dir ]> {[ [] := Dir ]})) [].

(** A regular file where the metadata directory should be. *)
Definition blocked_world : world :=
  World (<[ ["metadata"] := File "not a directory" ]> {[ [] := Dir ]}) [].

(** The file of [dk.test.app] holds the single byte FF, which is not
    UTF-8. *)
Definition undecodable_world : world :=
  World (<[ ["metadata"; "dk.test.app.json"] :=
              File (String "255"%char EmptyString) ]>
           (<[ ["metadata"] := Dir ]> {[ [] := Dir ]})) [].

(** U+D800, a lone surrogate, as a Python [str]. *)
Definition lone_surrogate : string :=
  String "237"%char (String "160"%char (String "128"%char EmptyString)).

(** A record whose [name] cannot be encoded as UTF-8. *)
Definition surrogate_record : gmap string json :=
  <["name" := JStr lone_surrogate]> ∅.

(** The JSON text of a string that holds the escape of U+D800. *)
Definition escaped_surrogate_text : string := MiniJson.quoted "\ud800".

(** A tool that leaves that text as the index, and a reader that decodes
    the escape, as [json.loads] does. *)
Definition surrogate_index_lib : PyLib := {|
  json_dumps := MiniJson.write;
  json_loads := fun s =>
    if String.eqb s escaped_surrogate_text then inr (JStr lone_surrogate)
    else MiniJson.read s;
  subprocess_run := fun _ cwd fsys =>
    Completed 0 EmptyString EmptyString
      (<[Index.index_path cwd := File escaped_surrogate_text]>
         (<[cwd // "repo" := Dir]> fsys))
|}.

(** A package id with a NUL character. *)
Definition nul_id : string :=
  String "d"%char (String "000"%char (String "k"%char EmptyString)).

(** A record without [package_id]. *)
Definition anonymous_app : gmap string json :=
  <["name" := JStr "No id"]> ∅.

End MoreExamples.

(** * Properties *)

(** ** Strings *)

Lemma prefix_append (s t : string) : String.prefix s (s +:+ t) = true.
Proof.
  induction s as [|c s IH]; simpl.
  - by destruct t.
  - destruct (ascii_dec c c) as [_|Hne]; [exact IH | by destruct Hne].
Qed.

Lemma str_in_unfold (needle hay : string) :
  str_in needle hay =
  String.prefix needle hay ||
  match hay with
  | EmptyString => false
  | String _ hay' => str_in needle hay'
  end.
Proof. by destruct hay. Qed.

Lemma str_in_prefix (s t : string) : str_in s (s +:+ t) = true.
Proof. by rewrite str_in_unfold, prefix_append. Qed.

Lemma str_in_append_r (s a t : string) :
  str_in s t = true -> str_in s (a +:+ t) = true.
Proof.
  intros Hin. induction a as [|c a IH]; [done|].
  rewrite str_in_unfold. change (String c a +:+ t) with (String c (a +:+ t)).
  cbv beta iota. rewrite IH. apply orb_true_r.
Qed.

(** A string mentions whatever is spliced into it. *)
Lemma str_in_middle (a s b : string) : str_in s (a +:+ s +:+ b) = true.
Proof. apply str_in_append_r, str_in_prefix. Qed.

Lemma append_empty_r (s : string) : s +:+ EmptyString = s.
Proof.
  induction s as [|c s IH]; [done|].
  change (String c s +:+ EmptyString) with (String c (s +:+ EmptyString)).
  by rewrite IH.
Qed.

Lemma str_in_suffix (a s : string) : str_in s (a +:+ s) = true.
Proof.
  rewrite <- (append_empty_r s) at 2. apply str_in_middle.
Qed.

(** ** [validate_metadata] *)

Module MetadataFacts.
Import Metadata.

Lemma fold_check_field (metadata : gmap string json) (fields : list string)
    (errors : list string) :
  fold_left (check_field metadata) fields errors =
  errors ++ flat_map (field_errors metadata) fields.
Proof.
  revert errors. induction fields as [|f fields IH]; intros errors; simpl.
  - by rewrite app_nil_r.
  - rewrite IH. unfold field_errors at 2, check_field.
    destruct (metadata !! f) as [v|]; [destruct (negb (truthy v))|];
      simpl; by rewrite <- ?app_assoc.
Qed.

(** The loop and the version block, as one list in the order of the code. *)
Lemma validate_metadata_unfold (metadata : gmap string json) :
  validate_metadata metadata =
  flat_map (field_errors metadata) required_fields ++
  check_version_code metadata [].
Proof.
  unfold validate_metadata. rewrite fold_check_field, app_nil_l.
  unfold check_version_code.
  destruct (metadata !! "version_code") as [v|]; [|by rewrite app_nil_r].
  destruct (negb (isinstance_int v)); [done|].
  destruct (int_lt_zero v); [done | by rewrite app_nil_r].
Qed.

Lemma missing_reported (metadata : gmap string json) (f : string) :
  f ∈ required_fields -> metadata !! f = None ->
  missing_msg f ∈ validate_metadata metadata.
Proof.
  intros Hf Hnone. rewrite validate_metadata_unfold.
  apply elem_of_app. left. apply list_elem_of_In, in_flat_map.
  exists f. split; [by apply list_elem_of_In|].
  unfold field_errors, check_field. rewrite Hnone. by left.
Qed.

Lemma filter_missing_fields (metadata : gmap string json) (fields : list string) :
  List.filter is_missing_msg (flat_map (field_errors metadata) fields) =
  map missing_msg (List.filter (is_missing metadata) fields).
Proof.
  induction fields as [|f fields IH]; [done|].
  cbn [flat_map]. rewrite List.filter_app, IH. cbn [List.filter].
  unfold field_errors, check_field, is_missing at 2.
  destruct (metadata !! f) as [v|].
  - rewrite bool_decide_eq_false_2 by done.
    by destruct (negb (truthy v)).
  - rewrite bool_decide_eq_true_2 by done. cbn [List.filter app map].
    unfold is_missing_msg, missing_msg. by rewrite prefix_append.
Qed.

Lemma filter_missing_version (metadata : gmap string json) :
  List.filter is_missing_msg (check_version_code metadata []) = [].
Proof.
  unfold check_version_code.
  destruct (metadata !! "version_code") as [v|]; [|done].
  destruct (negb (isinstance_int v)); [done|].
  by destruct (int_lt_zero v).
Qed.

(** A record whose required fields are all present and true in Python's
    sense, with an integer [version_code] that is not negative, has no
    error. *)
Lemma validate_metadata_valid (metadata : gmap string json) :
  (forall f, f ∈ required_fields ->
             exists v, metadata !! f = Some v /\ truthy v = true) ->
  (exists v, metadata !! "version_code" = Some v /\
             isinstance_int v = true /\ int_lt_zero v = false) ->
  validate_metadata metadata = [].
Proof.
  intros Hreq (vc & Hvc & Hint & Hneg).
  rewrite validate_metadata_unfold. unfold check_version_code.
  rewrite Hvc, Hint, Hneg. cbn [negb]. rewrite app_nil_r.
  assert (Hall : forall fields, (forall f, f ∈ fields -> f ∈ required_fields) ->
                 flat_map (field_errors metadata) fields = []).
  { induction fields as [|f fields IH]; intros Hsub; [done|].
    cbn [flat_map]. rewrite IH by (intros g Hg; apply Hsub; by right).
    destruct (Hreq f) as (v & Hv & Ht); [apply Hsub; by left|].
    unfold field_errors, check_field. by rewrite Hv, Ht. }
  by apply Hall.
Qed.

(** C3: the claim fails at this input. A record with every
    required field present and [version_code = 0] is reported as having an
    empty [version_code], because [not 0] is true in Python. *)
Theorem validate_metadata_rejects_zero :
  validate_metadata (Examples.valid_record (JInt 0)) =
  ["Empty required field: version_code"].
Proof. vm_compute. reflexivity. Qed.

(** [True] is an [int] for [isinstance]: it passes as a [version_code]. *)
Example validate_metadata_accepts_true :
  validate_metadata (Examples.valid_record (JBool true)) = [].
Proof. vm_compute. reflexivity. Qed.





End MetadataFacts.

(** ** The file system *)

Lemma isinstance_exn_refl (c : exn_class) (msg : string) (cause : option exn) :
  isinstance_exn (Exn c msg cause) c = true.
Proof. by destruct c. Qed.

Lemma mkdir_rev_is_dir (fsys fsys' : filesystem) (rp : list string) :
  mkdir_rev fsys rp = Ok fsys' -> fsys' !! rev rp = Some Dir.
Proof.
  destruct rp as [|x rp]; cbn [mkdir_rev].
  - destruct (fsys !! rev []) as [[c|]|] eqn:Hl; [done| |done].
    by intros [= <-].
  - destruct (fsys !! rev (x :: rp)) as [[c|]|] eqn:Hl; [done| |].
    + by intros [= <-].
    + destruct (bool_decide (parent (rev (x :: rp)) = rev (x :: rp))); [done|].
      destruct (mkdir_rev fsys rp) as [f1|e]; [|done].
      intros [= <-]. apply lookup_insert_eq.
Qed.

(** What a completed write went through, and what it leaves. *)
Lemma write_text_inv (p : Path) (content : string) (w w' : world) :
  write_text p content w = (Ok tt, w') ->
  os_path_error p = None /\ valid_utf8 content = true /\
  fs w !! p <> Some Dir /\ fs w !! parent p = Some Dir /\
  w' = World (<[p := File content]> (fs w)) (launched w).
Proof.
  unfold write_text. destruct (os_path_error p) as [e|]; [done|].
  destruct (fs w !! p) as [[c|]|], (fs w !! parent p) as [[c'|]|],
    (valid_utf8 content); try done; by intros [= <-].
Qed.

(** A successful write leaves the text at the path. *)
Lemma write_text_ok (p : Path) (content : string) (w w' : world) :
  write_text p content w = (Ok tt, w') ->
  fs w' = <[p := File content]> (fs w) /\ launched w' = launched w.
Proof. by intros (_ & _ & _ & _ & ->)%write_text_inv. Qed.

(** The conditions under which a write completes. *)
Lemma write_text_completes (p : Path) (content : string) (w : world) :
  os_path_error p = None -> valid_utf8 content = true ->
  fs w !! p <> Some Dir -> fs w !! parent p = Some Dir ->
  write_text p content w =
  (Ok tt, World (<[p := File content]> (fs w)) (launched w)).
Proof.
  intros Hpath Htext Hnodir Hparent. unfold write_text.
  rewrite Hpath, Hparent, Htext. by destruct (fs w !! p) as [[c|]|].
Qed.

Lemma run_is_logged `{PyLib} (args : list string) (cwd : Path) (w : world) :
  launched (run args cwd w).2 = launched w ++ [(args, cwd)].
Proof. unfold run. by destruct (subprocess_run args cwd (fs w)). Qed.

(** ** Paths made from one name *)

Lemma segments_no_slash (s : string) : no_slash s = true -> segments s = [s].
Proof.
  induction s as [|c s IH]; [done|]. cbn [no_slash segments].
  intros [Hc Hs]%andb_true_iff. apply negb_true_iff in Hc.
  by rewrite Hc, (IH Hs).
Qed.

Lemma no_slash_append (s t : string) :
  no_slash (s +:+ t) = no_slash s && no_slash t.
Proof.
  induction s as [|c s IH]; [done|].
  change (String c s +:+ t) with (String c (s +:+ t)). cbn [no_slash].
  by rewrite IH, andb_assoc.
Qed.

Lemma prefix_slash_no_slash (s : string) :
  no_slash s = true -> String.prefix "/" s = false.
Proof.
  destruct s as [|c s]; [done|]. cbn [no_slash].
  intros [Hc _]%andb_true_iff. apply negb_true_iff, Ascii.eqb_neq in Hc.
  cbn [String.prefix]. destruct (ascii_dec "/" c) as [Heq|_]; [|done].
  by destruct Hc.
Qed.

Lemma eqb_slash_no_slash (s : string) :
  no_slash s = true -> String.eqb s "/" = false.
Proof.
  destruct s as [|c s]; [done|]. cbn [no_slash].
  intros [Hc _]%andb_true_iff. apply negb_true_iff in Hc.
  cbn [String.eqb]. unfold slash in Hc. by rewrite Hc.
Qed.

Lemma keep_segment_json (name : string) :
  keep_segment (name +:+ ".json") = true.
Proof.
  destruct name as [|c [|c' name]]; [done| |].
  - unfold keep_segment. change (String c EmptyString +:+ ".json")
      with (String c ".json"). cbn [String.eqb].
    by destruct (Ascii.eqb c ".").
  - unfold keep_segment.
    change (String c (String c' name) +:+ ".json")
      with (String c (String c' (name +:+ ".json"))). cbn [String.eqb].
    by destruct (Ascii.eqb c ".").
Qed.

(** For a package id without a slash the file is a child of the
    directory. *)
Lemma joinpath_json (dir : Path) (name : string) :
  no_slash name = true ->
  dir // (name +:+ ".json") = dir ++ [name +:+ ".json"].
Proof.
  intros Hname.
  assert (Hfile : no_slash (name +:+ ".json") = true)
    by (by rewrite no_slash_append, Hname).
  unfold joinpath, parse_path.
  rewrite (prefix_slash_no_slash _ Hfile), (segments_no_slash _ Hfile).
  cbn [List.filter app]. rewrite keep_segment_json. cbn [is_absolute].
  by rewrite (eqb_slash_no_slash _ Hfile).
Qed.

Lemma parent_child (dir : Path) (name : string) :
  no_slash name = true -> parent (dir ++ [name]) = dir.
Proof.
  intros Hname. destruct dir as [|d [|d' dir]].
  - cbn [app parent is_absolute]. by rewrite (eqb_slash_no_slash _ Hname).
  - done.
  - change ((d :: d' :: dir) ++ [name]) with (d :: d' :: (dir ++ [name])).
    unfold parent.
    destruct (dir ++ [name]) as [|y ys] eqn:Hd;
      [by destruct dir|].
    rewrite <- Hd.
    change (d :: d' :: dir ++ [name]) with ((d :: d' :: dir) ++ [name]).
    apply removelast_last.
Qed.

(** ** [load_metadata] and [save_metadata] *)

Module MetadataIOFacts.
Import MetadataIO.

Section WithLibrary.
Context `{PyLib}.

Lemma load_metadata_absent (w : world) (dir : Path) (package_id : string) :
  fs w !! metadata_path dir package_id = None ->
  load_metadata dir package_id w =
  (Raise (Exn MetadataNotFoundError (not_found_msg package_id) None), w).
Proof.
  intros Hnone. unfold load_metadata, bind, path_exists.
  rewrite Hnone. rewrite bool_decide_eq_false_2; [done|].
  by intros [x Hx].
Qed.

Lemma load_metadata_directory (w : world) (dir : Path) (package_id : string) :
  fs w !! metadata_path dir package_id = Some Dir ->
  load_metadata dir package_id w =
  (Raise (Exn OSError
            ("Is a directory: " +:+ path_str (metadata_path dir package_id))
            None), w).
Proof.
  intros Hdir. unfold load_metadata, bind, path_exists.
  rewrite Hdir, bool_decide_eq_true_2 by eauto. cbn [negb].
  unfold try_except, bind, read_text. by rewrite Hdir.
Qed.

Lemma load_metadata_undecodable (w : world) (dir : Path) (package_id : string)
    (content : string) :
  fs w !! metadata_path dir package_id = Some (File content) ->
  valid_utf8 content = false ->
  load_metadata dir package_id w =
  (Raise (Exn UnicodeDecodeError
            "'utf-8' codec can't decode byte: invalid start byte" None), w).
Proof.
  intros Hfile Hbad. unfold load_metadata, bind, path_exists.
  rewrite Hfile, bool_decide_eq_true_2 by eauto. cbn [negb].
  unfold try_except, bind, read_text. by rewrite Hfile, Hbad.
Qed.

Lemma load_metadata_malformed (w : world) (dir : Path) (package_id : string)
    (content diag : string) :
  fs w !! metadata_path dir package_id = Some (File content) ->
  valid_utf8 content = true ->
  json_loads content = inl diag ->
  load_metadata dir package_id w =
  (Raise (Exn MetadataParseError (parse_error_msg package_id diag)
            (Some (Exn JSONDecodeError diag None))), w).
Proof.
  intros Hfile Hutf Hbad. unfold load_metadata, bind, path_exists.
  rewrite Hfile, bool_decide_eq_true_2 by eauto. cbn [negb].
  unfold try_except, bind, read_text, loads. by rewrite Hfile, Hutf, Hbad.
Qed.

Lemma load_metadata_decoded (w : world) (dir : Path) (package_id : string)
    (content : string) (v : json) :
  fs w !! metadata_path dir package_id = Some (File content) ->
  valid_utf8 content = true ->
  json_loads content = inr v ->
  load_metadata dir package_id w = (Ok v, w).
Proof.
  intros Hfile Hutf Hgood. unfold load_metadata, bind, path_exists.
  rewrite Hfile, bool_decide_eq_true_2 by eauto. cbn [negb].
  unfold try_except, bind, read_text, loads. by rewrite Hfile, Hutf, Hgood.
Qed.


(** C1: when [json.loads] gives back the record from the text that
    [json.dumps] makes of it, and [save_metadata] completes, a following
    [load_metadata] for the same directory and package id returns the saved
    record, in any directory and under any package id. *)
Theorem save_then_load (w w' : world) (dir : Path) (package_id : string)
    (metadata : gmap string json) :
  json_loads (json_dumps (JObj metadata)) = inr (JObj metadata) ->
  save_metadata dir package_id metadata w = (Ok tt, w') ->
  load_metadata dir package_id w' = (Ok (JObj metadata), w').
Proof.
  intros Hcodec Hsave. unfold save_metadata, bind, mkdir_parents in Hsave.
  destruct (os_path_error dir) as [e|]; [done|].
  destruct (mkdir_rev (fs w) (rev dir)) as [fs1|e]; [|done].
  apply write_text_inv in Hsave as (_ & Hutf & _ & _ & ->).
  apply load_metadata_decoded with (content := json_dumps (JObj metadata));
    [|done|done].
  cbn [fs]. apply lookup_insert_eq.
Qed.

(** What [save_metadata] needs in order to complete: the operating
    system accepts the paths, the directory can be made, the file's parent
    is then a directory and the file's own path is not one, and the text
    of the record can be encoded. *)
Lemma save_metadata_completes (w : world) (dir : Path) (package_id : string)
    (metadata : gmap string json) (fs1 : filesystem) :
  let p := metadata_path dir package_id in
  os_path_error dir = None ->
  os_path_error p = None ->
  valid_utf8 (json_dumps (JObj metadata)) = true ->
  mkdir_rev (fs w) (rev dir) = Ok fs1 ->
  fs1 !! parent p = Some Dir ->
  fs1 !! p <> Some Dir ->
  save_metadata dir package_id metadata w =
  (Ok tt, World (<[p := File (json_dumps (JObj metadata))]> fs1) (launched w)).
Proof.
  intros p Hdir Hpath Hutf Hmk Hparent Hnodir.
  unfold save_metadata, bind, mkdir_parents. rewrite Hdir, Hmk.
  by rewrite (write_text_completes (metadata_path dir package_id)
                (json_dumps (JObj metadata)) (World fs1 (launched w))).
Qed.

(** For a package id without a slash, [save_metadata] completes as soon as
    the operating system accepts the path, the directory can be made, the
    file's path is not a directory and the text of the record can be
    encoded; the record is then read back. *)
Lemma save_then_load_plain (w : world) (dir : Path) (package_id : string)
    (metadata : gmap string json) (fs1 : filesystem) :
  no_slash package_id = true ->
  os_path_error dir = None ->
  os_path_error (dir ++ [package_id +:+ ".json"]) = None ->
  valid_utf8 (json_dumps (JObj metadata)) = true ->
  mkdir_rev (fs w) (rev dir) = Ok fs1 ->
  fs1 !! (dir ++ [package_id +:+ ".json"]) <> Some Dir ->
  json_loads (json_dumps (JObj metadata)) = inr (JObj metadata) ->
  exists w',
    save_metadata dir package_id metadata w = (Ok tt, w') /\
    load_metadata dir package_id w' = (Ok (JObj metadata), w').
Proof.
  intros Hname Hdir Hpath Hutf Hmk Hnodir Hcodec.
  assert (Hfile : no_slash (package_id +:+ ".json") = true)
    by (by rewrite no_slash_append, Hname).
  assert (Hsave := save_metadata_completes w dir package_id metadata fs1 Hdir).
  cbv zeta in Hsave. unfold metadata_path in Hsave.
  rewrite (joinpath_json _ _ Hname), (parent_child _ _ Hfile) in Hsave.
  specialize (Hsave Hpath Hutf Hmk).
  apply mkdir_rev_is_dir in Hmk. rewrite rev_involutive in Hmk.
  specialize (Hsave Hmk Hnodir).
  eexists. split; [exact Hsave|].
  apply load_metadata_decoded with (content := json_dumps (JObj metadata));
    [|done|done].
  unfold metadata_path. rewrite (joinpath_json _ _ Hname).
  apply lookup_insert_eq.
Qed.

End WithLibrary.

Lemma save_then_load_witness :
  @save_metadata Examples.no_tool_lib ["metadata"] "dk.test.app"
    Examples.test_app Examples.empty_world =
  (Ok tt,
   World (<[ ["metadata"; "dk.test.app.json"] :=
               File (MiniJson.write (JObj Examples.test_app)) ]>
            (<[ ["metadata"] := Dir ]> {[ [] := Dir ]})) []) /\
  @load_metadata Examples.no_tool_lib ["metadata"] "dk.test.app"
    (World (<[ ["metadata"; "dk.test.app.json"] :=
                 File (MiniJson.write (JObj Examples.test_app)) ]>
              (<[ ["metadata"] := Dir ]> {[ [] := Dir ]})) []) =
  (Ok (JObj Examples.test_app),
   World (<[ ["metadata"; "dk.test.app.json"] :=
               File (MiniJson.write (JObj Examples.test_app)) ]>
            (<[ ["metadata"] := Dir ]> {[ [] := Dir ]})) []).
Proof.
  assert (Hsave : @save_metadata Examples.no_tool_lib ["metadata"] "dk.test.app"
    Examples.test_app Examples.empty_world =
  (Ok tt,
   World (<[ ["metadata"; "dk.test.app.json"] :=
               File (MiniJson.write (JObj Examples.test_app)) ]>
            (<[ ["metadata"] := Dir ]> {[ [] := Dir ]})) [])).
  { vm_compute. reflexivity. }
  split; [exact Hsave|].
  apply (@save_then_load Examples.no_tool_lib Examples.empty_world _
           ["metadata"] "dk.test.app" Examples.test_app).
  - vm_compute. reflexivity.
  - exact Hsave.
Defined.


(** C4: the claim fails at this input. The file of the package holds the
    single byte FF, which is not UTF-8 and so not JSON: [read_text] raises
    [UnicodeDecodeError], a [ValueError] that is not a [JSONDecodeError],
    the [except] clause does not match, and the caller receives it instead
    of a [MetadataParseError]. *)
Theorem load_metadata_undecodable_not_wrapped :
  @load_metadata Examples.no_tool_lib ["metadata"] "dk.test.app"
    MoreExamples.undecodable_world =
  (Raise (Exn UnicodeDecodeError
            "'utf-8' codec can't decode byte: invalid start byte" None),
   MoreExamples.undecodable_world) /\
  is_Some (fs MoreExamples.undecodable_world
             !! metadata_path ["metadata"] "dk.test.app") /\
  ~ raises (@load_metadata Examples.no_tool_lib ["metadata"] "dk.test.app"
              MoreExamples.undecodable_world) MetadataParseError.
Proof.
  assert (Hrun : @load_metadata Examples.no_tool_lib ["metadata"] "dk.test.app"
                   MoreExamples.undecodable_world =
    (Raise (Exn UnicodeDecodeError
              "'utf-8' codec can't decode byte: invalid start byte" None),
     MoreExamples.undecodable_world)).
  { apply @load_metadata_undecodable with
      (content := String "255"%char EmptyString); reflexivity. }
  split; [exact Hrun|]. split; [by eexists|].
  rewrite Hrun. intros (e & [= <-] & Hcls). vm_compute in Hcls. discriminate.
Qed.

(** A package id with a slash names a file in a subdirectory that
    [save_metadata] does not make: the write fails with [OSError]. *)
Example save_metadata_nested_id :
  (@save_metadata Examples.no_tool_lib ["metadata"] "dk/app"
     Examples.test_app Examples.empty_world).1 =
  Raise (Exn OSError "No such file or directory: metadata/dk/app.json" None).
Proof. vm_compute. reflexivity. Qed.

End MetadataIOFacts.

(** ** [generate_index] *)

Module GenerateFacts.
Import Index.

Section WithLibrary.
Context `{PyLib}.


(** Once the directory exists the process is launched, exactly once. *)
Lemma generate_index_launches (w : world) (repo_dir : Path)
    (output_path : option Path) :
  is_Some (fs w !! repo_dir) ->
  launched (generate_index repo_dir output_path w).2 =
  launched w ++ [(fdroid_args, repo_dir)].
Proof.
  intros Hdir. unfold generate_index, bind at 1, path_exists.
  rewrite bool_decide_eq_true_2 by done. cbn [negb].
  unfold try_except, bind, run.
  destruct (subprocess_run fdroid_args repo_dir (fs w))
    as [rc out err fs'|e]; cbn [fst snd].
  - destruct (negb (rc =? 0)); [done|].
    unfold path_exists. cbn [fs].
    destruct (bool_decide (is_Some (fs' !! index_path repo_dir))); [|done].
    cbn [negb]. unfold read_text. cbn [fs].
    destruct (fs' !! index_path repo_dir) as [[c|]|]; try done.
    destruct (valid_utf8 c); [|reflexivity].
    unfold loads. destruct (json_loads c) as [d|v]; [done|].
    cbn [ret]. destruct output_path as [out'|]; [|done].
    unfold write_text. cbn [fs launched].
    destruct (os_path_error out') as [e'|] eqn:Hpath.
    { unfold generate_handlers.
      destruct (isinstance_exn e' SubprocessError); [done|].
      by destruct (isinstance_exn e' JSONDecodeError). }
    destruct (fs' !! out') as [[c'|]|], (fs' !! parent out') as [[c''|]|],
      (valid_utf8 (json_dumps v)); done.
  - unfold generate_handlers.
    destruct (isinstance_exn e SubprocessError); [done|].
    by destruct (isinstance_exn e JSONDecodeError).
Qed.

(** Failure mode (a): a non-zero exit status. *)
Lemma generate_index_tool_failed (w : world) (repo_dir : Path)
    (output_path : option Path) (rc : Z) (out err : string) (fs' : filesystem) :
  is_Some (fs w !! repo_dir) ->
  subprocess_run fdroid_args repo_dir (fs w) = Completed rc out err fs' ->
  rc <> 0 ->
  generate_index repo_dir output_path w =
  (Raise (Exn IndexGenerationError ("fdroid update failed: " +:+ err) None),
   World fs' (launched w ++ [(fdroid_args, repo_dir)])).
Proof.
  intros Hdir Hrun Hrc. unfold generate_index, bind at 1, path_exists.
  rewrite bool_decide_eq_true_2 by done. cbn [negb].
  unfold try_except, bind, run. rewrite Hrun.
  by rewrite (proj2 (Z.eqb_neq rc 0) Hrc).
Qed.

(** Failure mode (b): a zero exit status and no index file. *)
Lemma generate_index_not_generated (w : world) (repo_dir : Path)
    (output_path : option Path) (out err : string) (fs' : filesystem) :
  is_Some (fs w !! repo_dir) ->
  subprocess_run fdroid_args repo_dir (fs w) = Completed 0 out err fs' ->
  fs' !! index_path repo_dir = None ->
  generate_index repo_dir output_path w =
  (Raise (Exn IndexGenerationError "Index file not generated" None),
   World fs' (launched w ++ [(fdroid_args, repo_dir)])).
Proof.
  intros Hdir Hrun Hnone. unfold generate_index, bind at 1, path_exists.
  rewrite bool_decide_eq_true_2 by done. cbn [negb].
  unfold try_except, bind, run. rewrite Hrun. cbn [Z.eqb negb fs].
  rewrite Hnone, bool_decide_eq_false_2; [done|]. by intros [x Hx].
Qed.

(** Failure mode (d): the index file is there, its bytes are UTF-8 and its
    text is not JSON. *)
Lemma generate_index_malformed (w : world) (repo_dir : Path)
    (output_path : option Path) (out err content diag : string)
    (fs' : filesystem) :
  is_Some (fs w !! repo_dir) ->
  subprocess_run fdroid_args repo_dir (fs w) = Completed 0 out err fs' ->
  fs' !! index_path repo_dir = Some (File content) ->
  valid_utf8 content = true ->
  json_loads content = inl diag ->
  generate_index repo_dir output_path w =
  (Raise (Exn IndexGenerationError
            ("Failed to parse generated index: " +:+ diag)
            (Some (Exn JSONDecodeError diag None))),
   World fs' (launched w ++ [(fdroid_args, repo_dir)])).
Proof.
  intros Hdir Hrun Hfile Hutf Hbad.
  unfold generate_index, bind at 1, path_exists.
  rewrite bool_decide_eq_true_2 by done. cbn [negb].
  unfold try_except, bind, run. rewrite Hrun. cbn [Z.eqb negb fs].
  rewrite Hfile, bool_decide_eq_true_2 by eauto. cbn [negb].
  unfold read_text, loads. cbn [fs]. by rewrite Hfile, Hutf, Hbad.
Qed.

(** An index file whose bytes are not UTF-8: the [UnicodeDecodeError] of
    the read passes both [except] clauses. *)
Lemma generate_index_undecodable (w : world) (repo_dir : Path)
    (output_path : option Path) (out err content : string) (fs' : filesystem) :
  is_Some (fs w !! repo_dir) ->
  subprocess_run fdroid_args repo_dir (fs w) = Completed 0 out err fs' ->
  fs' !! index_path repo_dir = Some (File content) ->
  valid_utf8 content = false ->
  generate_index repo_dir output_path w =
  (Raise (Exn UnicodeDecodeError
            "'utf-8' codec can't decode byte: invalid start byte" None),
   World fs' (launched w ++ [(fdroid_args, repo_dir)])).
Proof.
  intros Hdir Hrun Hfile Hutf.
  unfold generate_index, bind at 1, path_exists.
  rewrite bool_decide_eq_true_2 by done. cbn [negb].
  unfold try_except, bind, run. rewrite Hrun. cbn [Z.eqb negb fs].
  rewrite Hfile, bool_decide_eq_true_2 by eauto. cbn [negb].
  unfold read_text. cbn [fs]. by rewrite Hfile, Hutf.
Qed.

(** What the [except] clauses do with an exception that [subprocess.run]
    raises: a [SubprocessError] is wrapped. *)
Lemma generate_index_subprocess_error (w : world) (repo_dir : Path)
    (output_path : option Path) (e : exn) :
  is_Some (fs w !! repo_dir) ->
  subprocess_run fdroid_args repo_dir (fs w) = RunRaised e ->
  isinstance_exn e SubprocessError = true ->
  generate_index repo_dir output_path w =
  (Raise (Exn IndexGenerationError
            ("Failed to run fdroidserver: " +:+ exn_msg e) (Some e)),
   World (fs w) (launched w ++ [(fdroid_args, repo_dir)])).
Proof.
  intros Hdir Hrun Hsub. unfold generate_index, bind at 1, path_exists.
  rewrite bool_decide_eq_true_2 by done. cbn [negb].
  unfold try_except, bind, run. rewrite Hrun.
  unfold generate_handlers. by rewrite Hsub.
Qed.

(** Any other exception of [subprocess.run] passes through both clauses
    and reaches the caller as it is. *)
Lemma generate_index_launch_escapes (w : world) (repo_dir : Path)
    (output_path : option Path) (e : exn) :
  is_Some (fs w !! repo_dir) ->
  subprocess_run fdroid_args repo_dir (fs w) = RunRaised e ->
  isinstance_exn e SubprocessError = false ->
  isinstance_exn e JSONDecodeError = false ->
  generate_index repo_dir output_path w =
  (Raise e, World (fs w) (launched w ++ [(fdroid_args, repo_dir)])).
Proof.
  intros Hdir Hrun Hsub Hjson. unfold generate_index, bind at 1, path_exists.
  rewrite bool_decide_eq_true_2 by done. cbn [negb].
  unfold try_except, bind, run. rewrite Hrun.
  unfold generate_handlers. by rewrite Hsub, Hjson.
Qed.

(** The success path: the decoded index is returned, and written to
    [output_path] when one is given. *)
Lemma generate_index_returns (w : world) (repo_dir : Path)
    (out err content : string) (fs' : filesystem) (index_data : json) :
  is_Some (fs w !! repo_dir) ->
  subprocess_run fdroid_args repo_dir (fs w) = Completed 0 out err fs' ->
  fs' !! index_path repo_dir = Some (File content) ->
  valid_utf8 content = true ->
  json_loads content = inr index_data ->
  generate_index repo_dir None w =
  (Ok index_data, World fs' (launched w ++ [(fdroid_args, repo_dir)])).
Proof.
  intros Hdir Hrun Hfile Hutf Hgood.
  unfold generate_index, bind at 1, path_exists.
  rewrite bool_decide_eq_true_2 by done. cbn [negb].
  unfold try_except, bind, run. rewrite Hrun. cbn [Z.eqb negb fs].
  rewrite Hfile, bool_decide_eq_true_2 by eauto. cbn [negb].
  unfold read_text, loads. cbn [fs]. by rewrite Hfile, Hutf, Hgood.
Qed.

End WithLibrary.


(** C2: the claim fails at this input. The repository
    directory exists and the [fdroid] executable cannot be started, so
    [subprocess.run] raises [FileNotFoundError], an [OSError]. Neither
    [except] clause matches it: the caller receives the [OSError], not an
    [IndexGenerationError]. *)
Theorem generate_index_launch_failure_not_wrapped :
  @generate_index Examples.no_tool_lib ["srv"; "fdroid"] None
    Examples.repo_world =
  (Raise (Exn OSError "[Errno 2] No such file or directory: 'fdroid'" None),
   World (fs Examples.repo_world) [(fdroid_args, ["srv"; "fdroid"])]) /\
  ~ raises (@generate_index Examples.no_tool_lib ["srv"; "fdroid"] None
              Examples.repo_world) IndexGenerationError.
Proof.
  assert (Hrun : @generate_index Examples.no_tool_lib ["srv"; "fdroid"] None
                   Examples.repo_world =
    (Raise (Exn OSError "[Errno 2] No such file or directory: 'fdroid'" None),
     World (fs Examples.repo_world) [(fdroid_args, ["srv"; "fdroid"])])).
  { apply @generate_index_launch_escapes; try reflexivity.
    vm_compute. eauto. }
  split; [exact Hrun|].
  rewrite Hrun. intros (e & [= <-] & Hcls). vm_compute in Hcls. discriminate.
Qed.

End GenerateFacts.

(** ** [create_minimal_index] and [_format_app_entry] *)

Module IndexFacts.
Import Index.

Lemma package_key_string (app : gmap string json) :
  has_package_id app = true -> exists k, package_key app = Ok k.
Proof.
  unfold has_package_id, package_key.
  destruct (app !! "package_id") as [[]|]; try done. eauto.
Qed.

(** The comprehension completes when every record carries a package id. *)
Lemma dict_comprehension_completes (value : gmap string json -> json)
    (apps : list (gmap string json)) (acc : gmap string json) :
  Forall (fun app => has_package_id app = true) apps ->
  exists m, dict_comprehension value apps acc = Ok m.
Proof.
  intros Hall. revert acc.
  induction Hall as [|app apps Happ _ IH]; intros acc; cbn [dict_comprehension].
  - eauto.
  - destruct (package_key_string app Happ) as [k ->]. apply IH.
Qed.

(** The keys of the result do not depend on the values put under them. *)
Lemma dict_comprehension_dom (value1 value2 : gmap string json -> json)
    (apps : list (gmap string json)) (acc1 acc2 m1 m2 : gmap string json) :
  dom acc1 = dom acc2 ->
  dict_comprehension value1 apps acc1 = Ok m1 ->
  dict_comprehension value2 apps acc2 = Ok m2 ->
  dom m1 = dom m2.
Proof.
  revert acc1 acc2.
  induction apps as [|app apps IH]; intros acc1 acc2 Hdom; cbn [dict_comprehension].
  - by intros [= <-] [= <-].
  - destruct (package_key app) as [k|e]; [|done].
    apply IH. by rewrite !dom_insert_L, Hdom.
Qed.

(** Every value of the result was in the accumulator or was made by
    [value] from one of the records. *)
Lemma dict_comprehension_values (value : gmap string json -> json)
    (apps : list (gmap string json)) (acc m : gmap string json)
    (k : string) (v : json) :
  dict_comprehension value apps acc = Ok m ->
  m !! k = Some v ->
  acc !! k = Some v \/
  exists app, app ∈ apps /\ package_key app = Ok k /\ v = value app.
Proof.
  revert acc.
  induction apps as [|app apps IH]; intros acc; cbn [dict_comprehension].
  - intros [= <-] Hk. by left.
  - destruct (package_key app) as [k'|e] eqn:Hkey; [|done].
    intros Hrun Hk. destruct (IH _ Hrun Hk) as [Hacc|(a & Ha & Hka & Hv)].
    + destruct (decide (k' = k)) as [->|Hne].
      * rewrite lookup_insert_eq in Hacc. injection Hacc as <-.
        right. exists app. split; [by left | done].
      * rewrite lookup_insert_ne in Hacc by done. by left.
    + right. exists a. split; [by right | done].
Qed.

(** A key that no record carries keeps the accumulator's entry. *)
Lemma dict_comprehension_untouched (value : gmap string json -> json)
    (apps : list (gmap string json)) (acc m : gmap string json) (k : string) :
  dict_comprehension value apps acc = Ok m ->
  Forall (fun app => package_key app <> Ok k) apps ->
  m !! k = acc !! k.
Proof.
  intros Hrun Hall. revert acc Hrun.
  induction Hall as [|app apps Happ _ IH]; intros acc; cbn [dict_comprehension].
  - by intros [= <-].
  - destruct (package_key app) as [k'|e] eqn:Hkey; [|done].
    intros Hrun. rewrite (IH _ Hrun). apply lookup_insert_ne. congruence.
Qed.

(** The last record with a given package id decides the entry. *)
Lemma dict_comprehension_last (value : gmap string json -> json)
    (before after : list (gmap string json)) (this : gmap string json)
    (acc m : gmap string json) (k : string) :
  dict_comprehension value (before ++ this :: after) acc = Ok m ->
  package_key this = Ok k ->
  Forall (fun a => package_key a <> Ok k) after ->
  m !! k = Some (value this).
Proof.
  revert acc.
  induction before as [|b before IH]; intros acc; cbn [app dict_comprehension].
  - intros Hrun Hkey Hafter. rewrite Hkey in Hrun.
    rewrite (dict_comprehension_untouched _ _ _ _ _ Hrun Hafter).
    apply lookup_insert_eq.
  - destruct (package_key b) as [k'|e]; [|done]. apply IH.
Qed.

Lemma create_minimal_index_shape (timestamp : Z)
    (repo_name repo_description : string) (apps : list (gmap string json))
    (apps_map packages_map : gmap string json) :
  dict_comprehension _format_app_entry apps ∅ = Ok apps_map ->
  dict_comprehension (fun _ => JList []) apps ∅ = Ok packages_map ->
  create_minimal_index timestamp repo_name repo_description apps =
  Ok (JObj (<["repo" :=
              JObj (<["name" := localized (JStr repo_name)]>
                   (<["description" := localized (JStr repo_description)]>
                   (<["timestamp" := JInt timestamp]>
                   (<["version" := JInt schema_version]> ∅))))]>
           (<["apps" := JObj apps_map]>
           (<["packages" := JObj packages_map]> ∅)))).
Proof. intros Ha Hp. unfold create_minimal_index. by rewrite Ha, Hp. Qed.

Lemma create_minimal_index_completes (timestamp : Z)
    (repo_name repo_description : string) (apps : list (gmap string json)) :
  Forall (fun app => has_package_id app = true) apps ->
  exists index apps_map packages_map,
    create_minimal_index timestamp repo_name repo_description apps = Ok index /\
    dict_comprehension _format_app_entry apps ∅ = Ok apps_map /\
    dict_comprehension (fun _ => JList []) apps ∅ = Ok packages_map /\
    get_in ["repo"; "name"] index = Some (JObj {["en-US" := JStr repo_name]}) /\
    get_in ["repo"; "description"] index =
      Some (JObj {["en-US" := JStr repo_description]}) /\
    get_in ["repo"; "version"] index = Some (JInt 21) /\
    get_in ["repo"; "timestamp"] index = Some (JInt timestamp) /\
    obj_get "apps" index = Some (JObj apps_map) /\
    obj_get "packages" index = Some (JObj packages_map).
Proof.
  intros Hall.
  destruct (dict_comprehension_completes _format_app_entry apps ∅ Hall)
    as [apps_map Ha].
  destruct (dict_comprehension_completes (fun _ => JList []) apps ∅ Hall)
    as [packages_map Hp].
  eexists _, apps_map, packages_map.
  split; [by apply create_minimal_index_shape|].
  repeat split; try done.
Qed.

(** C8: given the reading of a clock that is past the epoch, and records
    that all carry a package id, [create_minimal_index] returns an index
    whose [repo.name] and [repo.description] are the maps
    [{"en-US": <given string>}], whose [repo.version] is 21 and whose
    [repo.timestamp] is a positive integer; with no apps it returns an index
    whose [apps] and [packages] are empty. *)
Theorem create_minimal_index_repo (timestamp : Z)
    (repo_name repo_description : string) (apps : list (gmap string json)) :
  0 < timestamp ->
  (Forall (fun app => has_package_id app = true) apps ->
   exists index,
     create_minimal_index timestamp repo_name repo_description apps = Ok index /\
     get_in ["repo"; "name"] index = Some (JObj {["en-US" := JStr repo_name]}) /\
     get_in ["repo"; "description"] index =
       Some (JObj {["en-US" := JStr repo_description]}) /\
     get_in ["repo"; "version"] index = Some (JInt 21) /\
     exists t, get_in ["repo"; "timestamp"] index = Some (JInt t) /\ 0 < t) /\
  (exists index,
     create_minimal_index timestamp repo_name repo_description [] = Ok index /\
     obj_get "apps" index = Some (JObj ∅) /\
     obj_get "packages" index = Some (JObj ∅) /\
     exists t, get_in ["repo"; "timestamp"] index = Some (JInt t) /\ 0 < t).
Proof.
  intros Hclock. split.
  - intros Hall.
    destruct (create_minimal_index_completes timestamp repo_name
                repo_description apps Hall)
      as (index & am & pm & Hrun & _ & _ & Hn & Hd & Hv & Ht & _).
    exists index. repeat split; try done. by exists timestamp.
  - eexists. split; [reflexivity|]. repeat split. by exists timestamp.
Qed.

Lemma create_minimal_index_repo_witness :
  exists index,
    create_minimal_index 1700000000000 "Empty Repo" "No apps yet" [] = Ok index /\
    obj_get "apps" index = Some (JObj ∅) /\
    obj_get "packages" index = Some (JObj ∅) /\
    exists t, get_in ["repo"; "timestamp"] index = Some (JInt t) /\ 0 < t.
Proof.
  apply (create_minimal_index_repo 1700000000000 "Empty Repo" "No apps yet" []).
  lia.
Defined.

Lemma dict_comprehension_keys (value : gmap string json -> json)
    (apps : list (gmap string json)) (acc m : gmap string json) (k : string) :
  dict_comprehension value apps acc = Ok m ->
  k ∈ dom m <-> k ∈ dom acc \/ exists app, app ∈ apps /\ package_key app = Ok k.
Proof.
  revert acc.
  induction apps as [|app apps IH]; intros acc; cbn [dict_comprehension].
  - intros [= <-]. split; [by left|].
    intros [Hk|(a & Ha & _)]; [done | by apply elem_of_nil in Ha].
  - destruct (package_key app) as [k'|e] eqn:Hkey; [|done].
    intros Hrun. rewrite (IH _ Hrun), dom_insert_L, elem_of_union,
      elem_of_singleton.
    split.
    + intros [[->|Hk]|(a & Ha & Hka)].
      * right. exists app. split; [by left | done].
      * by left.
      * right. exists a. split; [by right | done].
    + intros [Hk|(a & Ha & Hka)]; [by left; right|].
      apply elem_of_cons in Ha as [->|Ha].
      * left. left. congruence.
      * right. by exists a.
Qed.

(** The fields of a formatted entry, read back. *)
Lemma format_app_entry_fields (app : gmap string json) :
  let entry := _format_app_entry app in
  get_in ["name"; "en-US"] entry = Some (dict_get app "name" (JStr EmptyString)) /\
  get_in ["summary"; "en-US"] entry =
    Some (dict_get app "summary" (JStr EmptyString)) /\
  get_in ["description"; "en-US"] entry =
    Some (dict_get app "description" (JStr EmptyString)) /\
  obj_get "license" entry = Some (dict_get app "license" (JStr "Unknown")) /\
  obj_get "categories" entry = Some (dict_get app "categories" (JList [])) /\
  obj_get "suggestedVersionCode" entry =
    Some (dict_get app "version_code" (JInt 0)).
Proof. repeat split. Qed.

(** C9: for two records with distinct package ids, the index has both ids
    as keys of [apps], each entry being the formatted record, whose
    [name.en-US] is the record's [name]; and in the formatted entry of any
    record, [license] is "Unknown" and [categories] is the empty list when
    the record lacks them, and [suggestedVersionCode] is the record's
    [version_code], or 0 when it lacks one. *)
Theorem create_minimal_index_two_apps (timestamp : Z)
    (repo_name repo_description : string) (app1 app2 : gmap string json)
    (id1 id2 : string) :
  app1 !! "package_id" = Some (JStr id1) ->
  app2 !! "package_id" = Some (JStr id2) ->
  id1 <> id2 ->
  (exists index,
     create_minimal_index timestamp repo_name repo_description [app1; app2] =
       Ok index /\
     get_in ["apps"; id1] index = Some (_format_app_entry app1) /\
     get_in ["apps"; id2] index = Some (_format_app_entry app2) /\
     (forall n, app1 !! "name" = Some n ->
                get_in ["apps"; id1; "name"; "en-US"] index = Some n) /\
     (forall n, app2 !! "name" = Some n ->
                get_in ["apps"; id2; "name"; "en-US"] index = Some n)) /\
  (forall app : gmap string json,
     (app !! "license" = None ->
      obj_get "license" (_format_app_entry app) = Some (JStr "Unknown")) /\
     (app !! "categories" = None ->
      obj_get "categories" (_format_app_entry app) = Some (JList [])) /\
     (forall v, app !! "version_code" = Some v ->
      obj_get "suggestedVersionCode" (_format_app_entry app) = Some v) /\
     (app !! "version_code" = None ->
      obj_get "suggestedVersionCode" (_format_app_entry app) = Some (JInt 0))).
Proof.
  intros H1 H2 Hne. split.
  - assert (Hrun : dict_comprehension _format_app_entry [app1; app2] ∅ =
                   Ok (<[id2 := _format_app_entry app2]>
                         (<[id1 := _format_app_entry app1]> ∅))).
    { cbn [dict_comprehension]. unfold package_key. by rewrite H1, H2. }
    assert (Hpk : dict_comprehension (fun _ => JList []) [app1; app2] ∅ =
                  Ok (<[id2 := JList []]> (<[id1 := JList []]> ∅))).
    { cbn [dict_comprehension]. unfold package_key. by rewrite H1, H2. }
    eexists. split; [by apply create_minimal_index_shape|].
    assert (Hg1 : forall rest,
      get_in ("apps" :: id1 :: rest)
        (JObj (<["repo" :=
              JObj (<["name" := localized (JStr repo_name)]>
                   (<["description" := localized (JStr repo_description)]>
                   (<["timestamp" := JInt timestamp]>
                   (<["version" := JInt schema_version]> ∅))))]>
           (<["apps" := JObj (<[id2 := _format_app_entry app2]>
                         (<[id1 := _format_app_entry app1]> ∅))]>
           (<["packages" := JObj (<[id2 := JList []]> (<[id1 := JList []]> ∅))]> ∅)))) =
      get_in rest (_format_app_entry app1)).
    { intros rest. cbn [get_in obj_get].
      rewrite lookup_insert_ne, lookup_insert_eq by done. cbn [obj_get].
      by rewrite lookup_insert_ne, lookup_insert_eq by done. }
    assert (Hg2 : forall rest,
      get_in ("apps" :: id2 :: rest)
        (JObj (<["repo" :=
              JObj (<["name" := localized (JStr repo_name)]>
                   (<["description" := localized (JStr repo_description)]>
                   (<["timestamp" := JInt timestamp]>
                   (<["version" := JInt schema_version]> ∅))))]>
           (<["apps" := JObj (<[id2 := _format_app_entry app2]>
                         (<[id1 := _format_app_entry app1]> ∅))]>
           (<["packages" := JObj (<[id2 := JList []]> (<[id1 := JList []]> ∅))]> ∅)))) =
      get_in rest (_format_app_entry app2)).
    { intros rest. cbn [get_in obj_get].
      rewrite lookup_insert_ne, lookup_insert_eq by done. cbn [obj_get].
      by rewrite lookup_insert_eq. }
    rewrite !Hg1, !Hg2. repeat split.
    + intros n Hn.
      rewrite (proj1 (format_app_entry_fields app1)). unfold dict_get.
      by rewrite Hn.
    + intros n Hn.
      rewrite (proj1 (format_app_entry_fields app2)). unfold dict_get.
      by rewrite Hn.
  - intros app.
    destruct (format_app_entry_fields app) as (_ & _ & _ & Hl & Hc & Hv).
    rewrite Hl, Hc, Hv. unfold dict_get.
    repeat split; intros; by simplify_option_eq.
Qed.

Lemma create_minimal_index_two_apps_witness :
  exists index,
    create_minimal_index 1700000000000 "Test Repo" "Test"
      [Examples.app_one; Examples.app_two] = Ok index /\
    get_in ["apps"; "dk.test.app1"; "name"; "en-US"] index =
      Some (JStr "App One") /\
    get_in ["apps"; "dk.test.app2"; "name"; "en-US"] index =
      Some (JStr "App Two") /\
    get_in ["apps"; "dk.test.app1"; "license"] index = Some (JStr "Unknown") /\
    get_in ["apps"; "dk.test.app2"; "suggestedVersionCode"] index =
      Some (JInt 0).
Proof.
  destruct (create_minimal_index_two_apps 1700000000000 "Test Repo" "Test"
              Examples.app_one Examples.app_two "dk.test.app1" "dk.test.app2"
              eq_refl eq_refl ltac:(discriminate))
    as [(index & Hrun & He1 & He2 & Hn1 & Hn2) _].
  exists index. split; [exact Hrun|].
  split; [by apply Hn1|]. split; [by apply Hn2|].
  injection Hrun as <-. by vm_compute.
Defined.

(** C10: when every record carries a package id (the same id may occur
    several times), the index is returned, its [apps] and [packages] have
    the same keys, namely the package ids of the records, every value of
    [packages] is the empty list, and under each package id [apps] holds
    the formatted entry of the last record that carries it. *)
Theorem create_minimal_index_keys (timestamp : Z)
    (repo_name repo_description : string) (apps : list (gmap string json)) :
  Forall (fun app => has_package_id app = true) apps ->
  exists index apps_map packages_map,
    create_minimal_index timestamp repo_name repo_description apps = Ok index /\
    obj_get "apps" index = Some (JObj apps_map) /\
    obj_get "packages" index = Some (JObj packages_map) /\
    dom apps_map = dom packages_map /\
    (forall k, k ∈ dom apps_map <->
               exists app, app ∈ apps /\ package_key app = Ok k) /\
    (forall k v, packages_map !! k = Some v -> v = JList []) /\
    (forall before this after k,
       apps = before ++ this :: after ->
       package_key this = Ok k ->
       Forall (fun a => package_key a <> Ok k) after ->
       apps_map !! k = Some (_format_app_entry this)).
Proof.
  intros Hall.
  destruct (create_minimal_index_completes timestamp repo_name
              repo_description apps Hall)
    as (index & am & pm & Hrun & Ha & Hp & _ & _ & _ & _ & Hga & Hgp).
  exists index, am, pm. repeat split; try done.
  - by apply (dict_comprehension_dom _ _ apps ∅ ∅ am pm eq_refl Ha Hp).
  - intros Hk. apply (dict_comprehension_keys _ _ _ _ k Ha) in Hk.
    destruct Hk as [Hk|Hk]; [|done]. by rewrite dom_empty_L in Hk.
  - intros Hk. apply (dict_comprehension_keys _ _ _ _ k Ha). by right.
  - intros k v Hk.
    destruct (dict_comprehension_values _ _ _ _ _ _ Hp Hk)
      as [Hacc|(a & _ & _ & ->)]; done.
  - intros before this after k -> Hkey Hafter.
    by apply (dict_comprehension_last _ before after this ∅ am k).
Qed.

Lemma create_minimal_index_keys_witness :
  exists index apps_map packages_map,
    create_minimal_index 1700000000000 "Test Repo" "Test"
      [Examples.app_one; Examples.app_two; Examples.app_one_again] = Ok index /\
    obj_get "apps" index = Some (JObj apps_map) /\
    obj_get "packages" index = Some (JObj packages_map) /\
    dom apps_map = dom packages_map /\
    apps_map !! "dk.test.app1" =
      Some (_format_app_entry Examples.app_one_again).
Proof.
  destruct (create_minimal_index_keys 1700000000000 "Test Repo" "Test"
              [Examples.app_one; Examples.app_two; Examples.app_one_again])
    as (index & am & pm & Hrun & Ha & Hp & Hdom & _ & _ & Hlast).
  { repeat constructor. }
  exists index, am, pm. repeat split; try done.
  apply (Hlast [Examples.app_one; Examples.app_two] Examples.app_one_again []);
    [reflexivity | reflexivity | constructor].
Defined.

End IndexFacts.

(** * Further properties of the code *)

(** ** [validate_metadata] *)

Module ValidateMore.
Import Metadata MetadataFacts.

Lemma flat_map_nil_inv {A B} (f : A -> list B) (l : list A) :
  flat_map f l = [] -> forall x, x ∈ l -> f x = [].
Proof.
  induction l as [|a l IH]; intros Hnil x Hx; [by apply elem_of_nil in Hx|].
  cbn [flat_map] in Hnil. apply app_eq_nil in Hnil as [Ha Hl].
  apply elem_of_cons in Hx as [->|Hx]; [done | by apply IH].
Qed.

Lemma field_errors_nil (metadata : gmap string json) (f : string) :
  field_errors metadata f = [] ->
  exists v, metadata !! f = Some v /\ truthy v = true.
Proof.
  unfold field_errors, check_field.
  destruct (metadata !! f) as [v|]; [|done].
  destruct (truthy v) eqn:Ht; [eauto | done].
Qed.

Lemma field_errors_length (metadata : gmap string json) (f : string) :
  (length (field_errors metadata f) <= 1)%nat.
Proof.
  unfold field_errors, check_field.
  destruct (metadata !! f) as [v|]; [destruct (negb (truthy v))|]; cbn; lia.
Qed.

Lemma check_version_code_length (metadata : gmap string json) :
  (length (check_version_code metadata []) <= 1)%nat.
Proof.
  unfold check_version_code.
  destruct (metadata !! "version_code") as [v|]; [|cbn; lia].
  destruct (negb (isinstance_int v)); [cbn; lia|].
  destruct (int_lt_zero v); cbn; lia.
Qed.

(** X1: the result of [validate_metadata] is empty exactly when each of the
    five required fields is present with a value that is true in Python's
    sense, and [version_code] is an [int] that is not negative. *)
Theorem validate_metadata_empty_iff (metadata : gmap string json) :
  validate_metadata metadata = [] <->
  (forall f, f ∈ required_fields ->
             exists v, metadata !! f = Some v /\ truthy v = true) /\
  (exists v, metadata !! "version_code" = Some v /\
             isinstance_int v = true /\ int_lt_zero v = false).
Proof.
  split; [|intros [Hreq Hvc]; by apply validate_metadata_valid].
  rewrite validate_metadata_unfold. intros [Hfields Hvc]%app_eq_nil.
  assert (Hreq : forall f, f ∈ required_fields ->
                 exists v, metadata !! f = Some v /\ truthy v = true).
  { intros f Hf. apply field_errors_nil.
    by apply (flat_map_nil_inv _ _ Hfields). }
  split; [done|].
  destruct (Hreq "version_code") as (v & Hv & _).
  { unfold required_fields. set_solver. }
  exists v. split; [done|]. unfold check_version_code in Hvc.
  rewrite Hv in Hvc. destruct (isinstance_int v); [|done].
  by destruct (int_lt_zero v).
Qed.

Lemma validate_metadata_empty_iff_witness :
  validate_metadata (Examples.valid_record (JInt 1)) = [].
Proof.
  apply (proj2 (validate_metadata_empty_iff (Examples.valid_record (JInt 1)))).
  split.
  - intros f Hf. unfold required_fields in Hf.
    repeat (apply elem_of_cons in Hf as [->|Hf]); [..|by apply elem_of_nil in Hf];
      eexists; (split; [reflexivity|reflexivity]).
  - exists (JInt 1). repeat split.
Defined.

(** X2: a required field that is present with a value Python counts as
    false (an empty string, 0, [None], an empty list or dict) is reported
    by the message "Empty required field: <field>". *)
Theorem validate_metadata_empty_field (metadata : gmap string json)
    (f : string) (v : json) :
  f ∈ required_fields ->
  metadata !! f = Some v ->
  truthy v = false ->
  empty_msg f ∈ validate_metadata metadata /\
  str_in "Empty" (empty_msg f) = true /\
  str_in f (empty_msg f) = true.
Proof.
  intros Hf Hv Ht. split; [|split].
  - rewrite validate_metadata_unfold. apply elem_of_app. left.
    apply list_elem_of_In, in_flat_map. exists f.
    split; [by apply list_elem_of_In|].
    unfold field_errors, check_field. rewrite Hv, Ht. by left.
  - change (empty_msg f) with ("Empty" +:+ (" required field: " +:+ f)).
    apply str_in_prefix.
  - apply str_in_suffix.
Qed.

Lemma validate_metadata_empty_field_witness :
  "Empty required field: name" ∈ validate_metadata MoreExamples.unnamed_record.
Proof.
  apply (validate_metadata_empty_field MoreExamples.unnamed_record "name"
           (JStr EmptyString)); [|reflexivity|reflexivity].
  unfold required_fields. set_solver.
Defined.

(** X3: [validate_metadata] looks at the five required fields only: two
    records that agree on them get the same messages, whatever other
    fields they carry. *)
Theorem validate_metadata_ignores_optional (m1 m2 : gmap string json) :
  (forall f, f ∈ required_fields -> m1 !! f = m2 !! f) ->
  validate_metadata m1 = validate_metadata m2.
Proof.
  intros Hagree. rewrite !validate_metadata_unfold. f_equal.
  - assert (Hall : forall fields,
               (forall f, f ∈ fields -> f ∈ required_fields) ->
               flat_map (field_errors m1) fields =
               flat_map (field_errors m2) fields).
    { induction fields as [|f fields IH]; intros Hsub; [done|].
      cbn [flat_map]. rewrite IH by (intros g Hg; apply Hsub; by right).
      unfold field_errors, check_field.
      by rewrite (Hagree f) by (apply Hsub; by left). }
    by apply Hall.
  - unfold check_version_code. rewrite (Hagree "version_code"); [done|].
    unfold required_fields. set_solver.
Qed.

Lemma validate_metadata_ignores_optional_witness :
  validate_metadata MoreExamples.licensed_record =
  validate_metadata (Examples.valid_record (JInt 1)).
Proof.
  apply validate_metadata_ignores_optional.
  intros f Hf. unfold required_fields in Hf.
  repeat (apply elem_of_cons in Hf as [->|Hf]); [..|by apply elem_of_nil in Hf];
    reflexivity.
Defined.

(** X4: [validate_metadata] returns at most six messages: at most one for
    each required field and at most one about the type or range of
    [version_code]. *)
Theorem validate_metadata_at_most_six (metadata : gmap string json) :
  (length (validate_metadata metadata) <= 6)%nat.
Proof.
  rewrite validate_metadata_unfold, length_app.
  pose proof (check_version_code_length metadata).
  unfold required_fields. cbn [flat_map]. rewrite !length_app.
  pose proof (field_errors_length metadata "name").
  pose proof (field_errors_length metadata "summary").
  pose proof (field_errors_length metadata "description").
  pose proof (field_errors_length metadata "version_code").
  pose proof (field_errors_length metadata "version_name").
  cbn [length]. lia.
Qed.

End ValidateMore.

(** ** [load_metadata] and [save_metadata] *)

Module MetadataIOMore.
Import MetadataIO MetadataIOFacts.

Lemma os_path_error_class (p : Path) (e : exn) :
  os_path_error p = Some e ->
  (exn_cls e = UnicodeEncodeError \/ exn_cls e = ValueError) /\
  exn_cause e = None.
Proof.
  unfold os_path_error. destruct (negb (forallb fs_encodable p)).
  - intros [= <-]. split; [by left | done].
  - destruct (existsb has_nul p); [|done].
    intros [= <-]. split; [by right | done].
Qed.

Lemma write_text_raises (p : Path) (content : string) (w w' : world) (e : exn) :
  write_text p content w = (Raise e, w') ->
  (exn_cls e = OSError \/ exn_cls e = UnicodeEncodeError \/
   exn_cls e = ValueError) /\
  exn_cause e = None /\ launched w' = launched w.
Proof.
  unfold write_text. destruct (os_path_error p) as [e0|] eqn:Hpath.
  - intros [= <- <-]. destruct (os_path_error_class _ _ Hpath) as [[?|?] ?];
      repeat split; auto.
  - destruct (fs w !! p) as [[c|]|], (fs w !! parent p) as [[c'|]|],
      (valid_utf8 content); try done; intros [= <- <-];
      repeat split; auto.
Qed.

Lemma mkdir_rev_raises (fsys : filesystem) (rp : list string) (e : exn) :
  mkdir_rev fsys rp = Raise e -> exn_cls e = OSError /\ exn_cause e = None.
Proof.
  induction rp as [|x rp IH]; cbn [mkdir_rev].
  - destruct (fsys !! rev []) as [[c|]|]; try done; by intros [= <-].
  - destruct (fsys !! rev (x :: rp)) as [[c|]|]; [by intros [= <-]|done|].
    destruct (bool_decide (parent (rev (x :: rp)) = rev (x :: rp)));
      [by intros [= <-]|].
    destruct (mkdir_rev fsys rp) as [f1|e1]; [done|].
    intros [= <-]. by apply IH.
Qed.

(** Making directories keeps whatever was there. *)
Lemma mkdir_rev_preserves (fsys fsys' : filesystem) (rp : list string)
    (q : Path) (n : node) :
  mkdir_rev fsys rp = Ok fsys' -> fsys !! q = Some n -> fsys' !! q = Some n.
Proof.
  revert fsys'. induction rp as [|x rp IH]; intros fsys'; cbn [mkdir_rev].
  - destruct (fsys !! rev []) as [[c|]|]; try done. by intros [= <-].
  - destruct (fsys !! rev (x :: rp)) as [[c|]|] eqn:Hl; [done| |].
    + by intros [= <-].
    + destruct (bool_decide (parent (rev (x :: rp)) = rev (x :: rp))); [done|].
      destruct (mkdir_rev fsys rp) as [f1|e1]; [|done].
      intros [= <-] Hq. rewrite lookup_insert_ne; [by apply IH|].
      intros Heq. rewrite <- Heq in Hq.
      change (rev rp ++ [x]) with (rev (x :: rp)) in Hq. congruence.
Qed.

(** It touches no path that is longer than the directory's. *)
Lemma mkdir_rev_longer (fsys fsys' : filesystem) (rp : list string) (q : Path) :
  mkdir_rev fsys rp = Ok fsys' ->
  (length rp < length q)%nat ->
  fsys' !! q = fsys !! q.
Proof.
  revert fsys'. induction rp as [|x rp IH]; intros fsys'; cbn [mkdir_rev].
  - destruct (fsys !! rev []) as [[c|]|]; try done. by intros [= <-].
  - destruct (fsys !! rev (x :: rp)) as [[c|]|] eqn:Hl; [done| |].
    + by intros [= <-].
    + destruct (bool_decide (parent (rev (x :: rp)) = rev (x :: rp))); [done|].
      destruct (mkdir_rev fsys rp) as [f1|e1]; [|done].
      intros [= <-] Hlen. cbn [length] in Hlen.
      rewrite lookup_insert_ne; [apply IH; [done | lia]|].
      intros Heq. apply (f_equal length) in Heq.
      rewrite length_app, length_rev in Heq. cbn [length] in Heq. lia.
Qed.

Lemma mkdir_rev_existing (fsys : filesystem) (rp : list string) :
  fsys !! rev rp = Some Dir -> mkdir_rev fsys rp = Ok fsys.
Proof. intros Hdir. destruct rp; cbn [mkdir_rev]; by rewrite Hdir. Qed.

Lemma append_length (s t : string) :
  String.length (s +:+ t) = (String.length s + String.length t)%nat.
Proof.
  induction s as [|c s IH]; [done|].
  change (String c s +:+ t) with (String c (s +:+ t)). cbn [String.length].
  by rewrite IH.
Qed.

Lemma append_inj_l (s1 s2 t : string) : s1 +:+ t = s2 +:+ t -> s1 = s2.
Proof.
  revert s2. induction s1 as [|c s1 IH]; intros [|d s2] Heq; [done| | |].
  - apply (f_equal String.length) in Heq. rewrite !append_length in Heq.
    cbn [String.length] in Heq. lia.
  - apply (f_equal String.length) in Heq. rewrite !append_length in Heq.
    cbn [String.length] in Heq. lia.
  - change (String c s1 +:+ t) with (String c (s1 +:+ t)) in Heq.
    change (String d s2 +:+ t) with (String d (s2 +:+ t)) in Heq.
    injection Heq as -> Heq. f_equal. by apply IH.
Qed.

Section WithLibrary.
Context `{PyLib}.

(** What a completed [save_metadata] went through. *)
Lemma save_metadata_inv (w w' : world) (dir : Path) (package_id : string)
    (metadata : gmap string json) :
  save_metadata dir package_id metadata w = (Ok tt, w') ->
  exists fs1,
    mkdir_rev (fs w) (rev dir) = Ok fs1 /\
    fs1 !! metadata_path dir package_id <> Some Dir /\
    fs1 !! parent (metadata_path dir package_id) = Some Dir /\
    w' = World (<[metadata_path dir package_id :=
                    File (json_dumps (JObj metadata))]> fs1) (launched w) /\
    os_path_error dir = None /\
    os_path_error (metadata_path dir package_id) = None /\
    valid_utf8 (json_dumps (JObj metadata)) = true.
Proof.
  unfold save_metadata, bind, mkdir_parents.
  destruct (os_path_error dir) as [e|]; [done|].
  destruct (mkdir_rev (fs w) (rev dir)) as [fs1|e]; [|done].
  intros (Hpath & Hutf & Hnodir & Hparent & ->)%write_text_inv.
  by exists fs1.
Qed.

(** The outcome of [load_metadata] depends on the file system only through
    what is found at the package's path. *)
Lemma load_metadata_lookup (w1 w2 : world) (dir : Path) (package_id : string) :
  fs w1 !! metadata_path dir package_id = fs w2 !! metadata_path dir package_id ->
  (load_metadata dir package_id w1).1 = (load_metadata dir package_id w2).1.
Proof.
  intros Heq.
  destruct (fs w2 !! metadata_path dir package_id) as [[content|]|] eqn:Hp.
  - destruct (valid_utf8 content) eqn:Hutf.
    + destruct (json_loads content) as [diag|v] eqn:Hl.
      * by rewrite (load_metadata_malformed w1 _ _ _ _ Heq Hutf Hl),
          (load_metadata_malformed w2 _ _ _ _ Hp Hutf Hl).
      * by rewrite (load_metadata_decoded w1 _ _ _ _ Heq Hutf Hl),
          (load_metadata_decoded w2 _ _ _ _ Hp Hutf Hl).
    + by rewrite (load_metadata_undecodable w1 _ _ _ Heq Hutf),
        (load_metadata_undecodable w2 _ _ _ Hp Hutf).
  - by rewrite (load_metadata_directory w1 _ _ Heq),
      (load_metadata_directory w2 _ _ Hp).
  - by rewrite (load_metadata_absent w1 _ _ Heq),
      (load_metadata_absent w2 _ _ Hp).
Qed.

(** X5: [load_metadata] only reads: whether it returns or raises, the file
    system and the record of launched processes are as before. *)
Theorem load_metadata_read_only (w : world) (dir : Path) (package_id : string) :
  (load_metadata dir package_id w).2 = w.
Proof.
  destruct (fs w !! metadata_path dir package_id) as [[content|]|] eqn:Hp.
  - destruct (valid_utf8 content) eqn:Hutf.
    + destruct (json_loads content) as [diag|v] eqn:Hl.
      * by rewrite (load_metadata_malformed w _ _ _ _ Hp Hutf Hl).
      * by rewrite (load_metadata_decoded w _ _ _ _ Hp Hutf Hl).
    + by rewrite (load_metadata_undecodable w _ _ _ Hp Hutf).
  - by rewrite (load_metadata_directory w _ _ Hp).
  - by rewrite (load_metadata_absent w _ _ Hp).
Qed.

(** X6: with a [json.loads] that raises nothing but [JSONDecodeError], an
    exception raised by [load_metadata] is a [MetadataNotFoundError], a
    [MetadataParseError], an [OSError] (the path is a directory) or a
    [UnicodeDecodeError] (the file is not UTF-8); only
    the first two are caught by [except MetadataError] or
    [except BridgeError]; a parse error carries the [JSONDecodeError] as
    its cause and the decoder's diagnostic in its message. *)
Theorem load_metadata_errors (w : world) (dir : Path) (package_id : string)
    (e : exn) :
  (load_metadata dir package_id w).1 = Raise e ->
  (exn_cls e = MetadataNotFoundError \/ exn_cls e = MetadataParseError \/
   exn_cls e = OSError \/ exn_cls e = UnicodeDecodeError) /\
  (isinstance_exn e BridgeError = isinstance_exn e MetadataError) /\
  (isinstance_exn e MetadataError =
   bool_decide (exn_cls e = MetadataNotFoundError \/
                exn_cls e = MetadataParseError)) /\
  (exn_cls e = MetadataParseError ->
   exists diag, exn_cause e = Some (Exn JSONDecodeError diag None) /\
                str_in diag (exn_msg e) = true).
Proof.
  destruct (fs w !! metadata_path dir package_id) as [[content|]|] eqn:Hp.
  - destruct (valid_utf8 content) eqn:Hutf.
    + destruct (json_loads content) as [diag|v] eqn:Hl.
      * rewrite (load_metadata_malformed w _ _ _ _ Hp Hutf Hl). intros [= <-].
        repeat split; [by right; left|]. intros _. exists diag.
        split; [done|]. cbn [exn_msg]. unfold parse_error_msg.
        apply str_in_append_r, str_in_append_r, str_in_append_r.
        rewrite <- (append_empty_r diag) at 2. apply str_in_prefix.
      * by rewrite (load_metadata_decoded w _ _ _ _ Hp Hutf Hl).
    + rewrite (load_metadata_undecodable w _ _ _ Hp Hutf). intros [= <-].
      repeat split; [by right; right; right | done].
  - rewrite (load_metadata_directory w _ _ Hp). intros [= <-].
    repeat split; [by right; right; left | done].
  - rewrite (load_metadata_absent w _ _ Hp). intros [= <-].
    repeat split; [by left | done].
Qed.

(** X7: with a [json.dumps] that does not raise, an exception raised by
    [save_metadata] is an [OSError], a [UnicodeEncodeError] (the text of the record, or the path, cannot be
    encoded) or a [ValueError] (a NUL character in the path); it has no
    cause and is not a [BridgeError]; and [save_metadata] starts no
    process. *)
Theorem save_metadata_errors (w : world) (dir : Path) (package_id : string)
    (metadata : gmap string json) :
  (forall e, (save_metadata dir package_id metadata w).1 = Raise e ->
             (exn_cls e = OSError \/ exn_cls e = UnicodeEncodeError \/
              exn_cls e = ValueError) /\
             exn_cause e = None /\
             isinstance_exn e BridgeError = false) /\
  launched (save_metadata dir package_id metadata w).2 = launched w.
Proof.
  assert (Hnot : forall e,
            exn_cls e = OSError \/ exn_cls e = UnicodeEncodeError \/
            exn_cls e = ValueError ->
            isinstance_exn e BridgeError = false).
  { intros [c m k]. cbn [exn_cls]. unfold isinstance_exn. cbn [exn_cls].
    by intros [->|[->| ->]]. }
  unfold save_metadata, bind, mkdir_parents.
  destruct (os_path_error dir) as [e0|] eqn:Hdir.
  { split; [|done]. intros e [= <-].
    destruct (os_path_error_class _ _ Hdir) as [Hc Hn].
    assert (Hcls : exn_cls e0 = OSError \/ exn_cls e0 = UnicodeEncodeError \/
                   exn_cls e0 = ValueError) by tauto.
    by auto. }
  destruct (mkdir_rev (fs w) (rev dir)) as [fs1|e1] eqn:Hmk.
  - destruct (write_text (metadata_path dir package_id)
                (json_dumps (JObj metadata)) (World fs1 (launched w)))
      as [[[]|e2] w2] eqn:Hw.
    + apply write_text_inv in Hw as (_ & _ & _ & _ & ->). by split.
    + apply write_text_raises in Hw as (Hc & Hn & Hlog).
      split; [|done]. intros e [= <-]. by auto.
  - split; [|done]. intros e [= <-].
    destruct (mkdir_rev_raises _ _ _ Hmk) as [Hc Hn]. by auto.
Qed.


(** X9: once a record has been saved, saving another record for the same
    directory and package id completes whenever the text of the later
    record can be encoded as UTF-8, and a load then returns the later
    record (when [json.loads] inverts [json.dumps] on it). *)
Theorem save_metadata_again (w w' : world) (dir : Path) (package_id : string)
    (first later : gmap string json) :
  save_metadata dir package_id first w = (Ok tt, w') ->
  valid_utf8 (json_dumps (JObj later)) = true ->
  json_loads (json_dumps (JObj later)) = inr (JObj later) ->
  exists w'',
    save_metadata dir package_id later w' = (Ok tt, w'') /\
    load_metadata dir package_id w'' = (Ok (JObj later), w'').
Proof.
  intros (fs1 & Hmk & Hnodir & Hparent & -> & Hdirok & Hpathok & _)%save_metadata_inv
    Hutf Hcodec.
  apply mkdir_rev_is_dir in Hmk. rewrite rev_involutive in Hmk.
  set (p := metadata_path dir package_id) in *.
  set (fs2 := <[p := File (json_dumps (JObj first))]> fs1).
  assert (Hdir : fs2 !! dir = Some Dir).
  { unfold fs2. rewrite lookup_insert_ne; [done|].
    intros Heq. by rewrite Heq in Hnodir. }
  assert (Hpar : fs2 !! parent p = Some Dir).
  { unfold fs2. rewrite lookup_insert_ne; [done|].
    intros Heq. by rewrite Heq in Hnodir. }
  assert (Hfile : fs2 !! p <> Some Dir).
  { unfold fs2. by rewrite lookup_insert_eq. }
  eexists. split.
  - apply (save_metadata_completes (World fs2 (launched w)) dir package_id
             later fs2); [done|done|done| |done|done].
    cbn [fs]. apply mkdir_rev_existing. by rewrite rev_involutive.
  - apply load_metadata_decoded with (content := json_dumps (JObj later));
      [|done|done].
    cbn [fs]. apply lookup_insert_eq.
Qed.

(** X24: when the directory can be made and the file can be opened but
    the text of the record cannot be encoded as UTF-8 (it holds a lone
    surrogate), [save_metadata] raises [UnicodeEncodeError] and leaves the
    file of the package empty: a record saved there before is lost. *)
Theorem save_metadata_unencodable (w : world) (dir : Path)
    (package_id : string) (metadata : gmap string json) (fs1 : filesystem) :
  let p := metadata_path dir package_id in
  os_path_error dir = None ->
  os_path_error p = None ->
  mkdir_rev (fs w) (rev dir) = Ok fs1 ->
  fs1 !! parent p = Some Dir ->
  fs1 !! p <> Some Dir ->
  valid_utf8 (json_dumps (JObj metadata)) = false ->
  exists e w',
    save_metadata dir package_id metadata w = (Raise e, w') /\
    exn_cls e = UnicodeEncodeError /\
    fs w' !! p = Some (File EmptyString).
Proof.
  intros p Hdir Hpath Hmk Hparent Hnodir Hutf.
  unfold save_metadata, bind, mkdir_parents. rewrite Hdir, Hmk.
  unfold write_text. cbn [fs launched]. fold p.
  rewrite Hpath, Hparent, Hutf.
  destruct (fs1 !! p) as [[c|]|]; [|done|];
    (eexists _, _; split; [reflexivity|]; split; [done|];
     cbn [fs]; apply lookup_insert_eq).
Qed.


End WithLibrary.

(** X11: two different package ids without a slash are stored in
    different files of the metadata directory. *)
Theorem metadata_path_distinct (dir : Path) (id1 id2 : string) :
  no_slash id1 = true ->
  no_slash id2 = true ->
  id1 <> id2 ->
  metadata_path dir id1 <> metadata_path dir id2.
Proof.
  intros H1 H2 Hne. unfold metadata_path.
  rewrite (joinpath_json _ _ H1), (joinpath_json _ _ H2).
  intros [_ Heq]%app_inj_tail. by apply append_inj_l in Heq.
Qed.

Lemma metadata_path_distinct_witness :
  metadata_path ["metadata"] "dk.test.app" <>
  metadata_path ["metadata"] "dk.other".
Proof.
  apply metadata_path_distinct; [reflexivity | reflexivity | discriminate].
Defined.

Lemma load_metadata_errors_witness :
  exists diag,
    exn_cause (Exn MetadataParseError
                 "Invalid metadata for invalid.app: Expecting value"
                 (Some (Exn JSONDecodeError "Expecting value" None))) =
      Some (Exn JSONDecodeError diag None) /\
    str_in diag "Invalid metadata for invalid.app: Expecting value" = true.
Proof.
  apply (@load_metadata_errors Examples.no_tool_lib
           (World (<[ ["invalid.app.json"] := File "not valid json {" ]>
                     {[ [] := Dir ]}) []) [] "invalid.app"
           (Exn MetadataParseError
              "Invalid metadata for invalid.app: Expecting value"
              (Some (Exn JSONDecodeError "Expecting value" None)))).
  - vm_compute. reflexivity.
  - reflexivity.
Defined.

Lemma save_metadata_errors_witness :
  (exn_cls (Exn ValueError "embedded null byte" None) = OSError \/
   exn_cls (Exn ValueError "embedded null byte" None) = UnicodeEncodeError \/
   exn_cls (Exn ValueError "embedded null byte" None) = ValueError) /\
  exn_cause (Exn ValueError "embedded null byte" None) = None /\
  isinstance_exn (Exn ValueError "embedded null byte" None) BridgeError = false.
Proof.
  apply (proj1 (@save_metadata_errors Examples.no_tool_lib
                  Examples.empty_world ["metadata"] MoreExamples.nul_id
                  Examples.test_app)).
  vm_compute. reflexivity.
Defined.


Lemma save_metadata_again_witness :
  exists w'',
    @save_metadata Examples.no_tool_lib ["metadata"] "dk.test.app"
      MoreExamples.other_app
      (@save_metadata Examples.no_tool_lib ["metadata"] "dk.test.app"
         Examples.test_app Examples.empty_world).2 = (Ok tt, w'') /\
    @load_metadata Examples.no_tool_lib ["metadata"] "dk.test.app" w'' =
      (Ok (JObj MoreExamples.other_app), w'').
Proof.
  apply (@save_metadata_again Examples.no_tool_lib Examples.empty_world _
           ["metadata"] "dk.test.app" Examples.test_app MoreExamples.other_app).
  - vm_compute. reflexivity.
  - vm_compute. reflexivity.
  - vm_compute. reflexivity.
Defined.

Lemma save_metadata_unencodable_witness :
  exists e w',
    @save_metadata Examples.no_tool_lib ["metadata"] "dk.other"
      MoreExamples.surrogate_record MoreExamples.store_world = (Raise e, w') /\
    exn_cls e = UnicodeEncodeError /\
    fs w' !! ["metadata"; "dk.other.json"] = Some (File EmptyString).
Proof.
  apply (@save_metadata_unencodable Examples.no_tool_lib
           MoreExamples.store_world ["metadata"] "dk.other"
           MoreExamples.surrogate_record (fs MoreExamples.store_world)).
  - vm_compute. reflexivity.
  - vm_compute. reflexivity.
  - vm_compute. reflexivity.
  - vm_compute. reflexivity.
  - vm_compute. discriminate.
  - vm_compute. reflexivity.
Defined.


End MetadataIOMore.

(** ** [generate_index] *)

Module GenerateMore.
Import Index GenerateFacts.

Section WithLibrary.
Context `{PyLib}.

(** X12: no [SubprocessError] and no [JSONDecodeError] ever leaves
    [generate_index]: whatever it raises is of neither class. *)
Theorem generate_index_never_leaks (w : world) (repo_dir : Path)
    (output_path : option Path) (e : exn) :
  (generate_index repo_dir output_path w).1 = Raise e ->
  isinstance_exn e SubprocessError = false /\
  isinstance_exn e JSONDecodeError = false.
Proof.
  unfold generate_index, bind at 1, path_exists.
  destruct (bool_decide (is_Some (fs w !! repo_dir)));
    cbn [negb]; [|by intros [= <-]].
  unfold try_except, bind, run.
  destruct (subprocess_run fdroid_args repo_dir (fs w))
    as [rc out err fs'|e0]; cbn [fst snd].
  - destruct (negb (rc =? 0)); [by intros [= <-]|].
    unfold path_exists. cbn [fs].
    destruct (bool_decide (is_Some (fs' !! index_path repo_dir)));
      cbn [negb]; [|by intros [= <-]].
    unfold read_text. cbn [fs].
    destruct (fs' !! index_path repo_dir) as [[c|]|];
      [|by intros [= <-]|by intros [= <-]].
    destruct (valid_utf8 c); [|by intros [= <-]].
    unfold loads. destruct (json_loads c) as [d|v]; [by intros [= <-]|].
    cbn [ret]. destruct output_path as [out'|]; [|done].
    unfold write_text. cbn [fs launched].
    destruct (os_path_error out') as [e'|] eqn:Hpath.
    { destruct e' as [c' m' k'].
      destruct (MetadataIOMore.os_path_error_class _ _ Hpath) as [Hcls _].
      cbn [exn_cls] in Hcls.
      destruct Hcls as [-> | ->]; by intros [= <-]. }
    destruct (fs' !! out') as [[c'|]|], (fs' !! parent out') as [[c''|]|],
      (valid_utf8 (json_dumps v)); try done; by intros [= <-].
  - unfold generate_handlers.
    destruct (isinstance_exn e0 SubprocessError) eqn:Hsub; [by intros [= <-]|].
    destruct (isinstance_exn e0 JSONDecodeError) eqn:Hjson; [by intros [= <-]|].
    by intros [= <-].
Qed.

(** X13: when the directory exists and the tool runs to its end, a
    non-zero exit status raises [IndexGenerationError] with the captured
    standard error in the message; a zero status without an index file
    raises it with "Index file not generated"; a zero status with an index
    file whose bytes are UTF-8 and whose text is not JSON raises it with
    the decoder's diagnostic in the message and the [JSONDecodeError] as
    cause; a zero status with an index file whose bytes are not UTF-8 lets
    the [UnicodeDecodeError] of the read reach the caller. *)
Theorem generate_index_tool_failures (w : world) (repo_dir : Path)
    (output_path : option Path) (rc : Z) (out err : string) (fs' : filesystem) :
  is_Some (fs w !! repo_dir) ->
  subprocess_run fdroid_args repo_dir (fs w) = Completed rc out err fs' ->
  let r := generate_index repo_dir output_path w in
  (rc <> 0 -> raises_mentioning r IndexGenerationError err) /\
  (rc = 0 -> fs' !! index_path repo_dir = None ->
   r.1 = Raise (Exn IndexGenerationError "Index file not generated" None)) /\
  (rc = 0 -> forall content diag,
   fs' !! index_path repo_dir = Some (File content) ->
   valid_utf8 content = true ->
   json_loads content = inl diag ->
   raises_mentioning r IndexGenerationError diag /\
   exists e, r.1 = Raise e /\
             exn_cause e = Some (Exn JSONDecodeError diag None)) /\
  (rc = 0 -> forall content,
   fs' !! index_path repo_dir = Some (File content) ->
   valid_utf8 content = false ->
   raises r UnicodeDecodeError /\ ~ raises r IndexGenerationError).
Proof.
  intros Hdir Hrun r. subst r. split; [|split; [|split]].
  - intros Hrc.
    rewrite (generate_index_tool_failed w repo_dir output_path rc out err fs'
               Hdir Hrun Hrc).
    eexists. split; [done|]. split; [done|]. apply str_in_suffix.
  - intros -> Hnone.
    by rewrite (generate_index_not_generated w repo_dir output_path out err fs'
                  Hdir Hrun Hnone).
  - intros -> content diag Hfile Hutf Hbad.
    rewrite (generate_index_malformed w repo_dir output_path out err content
               diag fs' Hdir Hrun Hfile Hutf Hbad).
    split; [|by eexists].
    eexists. split; [done|]. split; [done|]. apply str_in_suffix.
  - intros -> content Hfile Hutf.
    rewrite (generate_index_undecodable w repo_dir output_path out err content
               fs' Hdir Hrun Hfile Hutf).
    split; [by eexists|]. by intros (e & [= <-] & He).
Qed.

(** X14: a [SubprocessError] raised by [subprocess.run] is raised again as
    [IndexGenerationError], with the original message inside the new one
    and the original exception as cause; the file system is not changed. *)
Theorem generate_index_wraps_subprocess_error (w : world) (repo_dir : Path)
    (output_path : option Path) (e : exn) :
  is_Some (fs w !! repo_dir) ->
  subprocess_run fdroid_args repo_dir (fs w) = RunRaised e ->
  isinstance_exn e SubprocessError = true ->
  let r := generate_index repo_dir output_path w in
  raises_mentioning r IndexGenerationError (exn_msg e) /\
  (exists e', r.1 = Raise e' /\ exn_cause e' = Some e) /\
  fs r.2 = fs w.
Proof.
  intros Hdir Hrun Hsub r. subst r.
  rewrite (generate_index_subprocess_error w repo_dir output_path e
             Hdir Hrun Hsub).
  repeat split.
  - eexists. split; [done|]. split; [done|]. apply str_in_suffix.
  - by eexists.
Qed.

(** X15: when the tool exits with 0 and leaves an index file whose bytes
    are UTF-8 and whose text decodes, [generate_index] returns the decoded
    index; with an [output_path] that can be written, and an index whose
    re-encoded text can be encoded as UTF-8, it also writes that text
    there, and returns the same value as without one. *)
Theorem generate_index_writes_copy (w : world) (repo_dir out_path : Path)
    (out err content : string) (fs' : filesystem) (index_data : json) :
  is_Some (fs w !! repo_dir) ->
  subprocess_run fdroid_args repo_dir (fs w) = Completed 0 out err fs' ->
  fs' !! index_path repo_dir = Some (File content) ->
  valid_utf8 content = true ->
  json_loads content = inr index_data ->
  os_path_error out_path = None ->
  valid_utf8 (json_dumps index_data) = true ->
  fs' !! out_path <> Some Dir ->
  fs' !! parent out_path = Some Dir ->
  generate_index repo_dir (Some out_path) w =
    (Ok index_data,
     World (<[out_path := File (json_dumps index_data)]> fs')
           (launched w ++ [(fdroid_args, repo_dir)])) /\
  generate_index repo_dir None w =
    (Ok index_data, World fs' (launched w ++ [(fdroid_args, repo_dir)])).
Proof.
  intros Hdir Hrun Hfile Hutf Hgood Hpath Htext Hnodir Hparent.
  split; [|by apply (generate_index_returns w repo_dir out err content)].
  unfold generate_index, bind at 1, path_exists.
  rewrite bool_decide_eq_true_2 by done. cbn [negb].
  unfold try_except, bind, run. rewrite Hrun. cbn [Z.eqb negb fs].
  rewrite Hfile, bool_decide_eq_true_2 by eauto. cbn [negb].
  unfold read_text, loads. cbn [fs]. rewrite Hfile, Hutf, Hgood. cbn [ret].
  by rewrite (write_text_completes out_path (json_dumps index_data)
                (World fs' (launched w ++ [(fdroid_args, repo_dir)]))).
Qed.

(** X16: when the index was generated and decoded (its bytes are UTF-8)
    but the parent of [output_path], a path the operating system accepts,
    is not a directory, writing the copy fails and the [OSError] of the
    write reaches the caller: no index is returned. *)
Theorem generate_index_copy_failure (w : world) (repo_dir out_path : Path)
    (out err content : string) (fs' : filesystem) (index_data : json) :
  is_Some (fs w !! repo_dir) ->
  subprocess_run fdroid_args repo_dir (fs w) = Completed 0 out err fs' ->
  fs' !! index_path repo_dir = Some (File content) ->
  valid_utf8 content = true ->
  json_loads content = inr index_data ->
  os_path_error out_path = None ->
  fs' !! out_path <> Some Dir ->
  fs' !! parent out_path <> Some Dir ->
  generate_index repo_dir (Some out_path) w =
    (Raise (Exn OSError
              ("No such file or directory: " +:+ path_str out_path) None),
     World fs' (launched w ++ [(fdroid_args, repo_dir)])).
Proof.
  intros Hdir Hrun Hfile Hutf Hgood Hpath Hnodir Hparent.
  unfold generate_index, bind at 1, path_exists.
  rewrite bool_decide_eq_true_2 by done. cbn [negb].
  unfold try_except, bind, run. rewrite Hrun. cbn [Z.eqb negb fs].
  rewrite Hfile, bool_decide_eq_true_2 by eauto. cbn [negb].
  unfold read_text, loads. cbn [fs]. rewrite Hfile, Hutf, Hgood. cbn [ret].
  unfold write_text. cbn [fs launched]. rewrite Hpath.
  destruct (fs' !! out_path) as [[c|]|], (fs' !! parent out_path) as [[c'|]|];
    done.
Qed.

(** X25: when the index was generated and decoded but its re-encoded text
    cannot be encoded as UTF-8 (the index holds a lone surrogate), the
    write of the copy raises [UnicodeEncodeError], which reaches the
    caller, and [output_path] is left empty, although the same call
    without [output_path] returns the index. *)
Theorem generate_index_copy_unencodable (w : world) (repo_dir out_path : Path)
    (out err content : string) (fs' : filesystem) (index_data : json) :
  is_Some (fs w !! repo_dir) ->
  subprocess_run fdroid_args repo_dir (fs w) = Completed 0 out err fs' ->
  fs' !! index_path repo_dir = Some (File content) ->
  valid_utf8 content = true ->
  json_loads content = inr index_data ->
  os_path_error out_path = None ->
  valid_utf8 (json_dumps index_data) = false ->
  fs' !! out_path <> Some Dir ->
  fs' !! parent out_path = Some Dir ->
  raises (generate_index repo_dir (Some out_path) w) UnicodeEncodeError /\
  ~ raises (generate_index repo_dir (Some out_path) w) IndexGenerationError /\
  fs (generate_index repo_dir (Some out_path) w).2 !! out_path =
    Some (File EmptyString) /\
  (generate_index repo_dir None w).1 = Ok index_data.
Proof.
  intros Hdir Hrun Hfile Hutf Hgood Hpath Htext Hnodir Hparent.
  assert (Hcopy : generate_index repo_dir (Some out_path) w =
    (Raise (Exn UnicodeEncodeError
              "'utf-8' codec can't encode character: surrogates not allowed"
              None),
     World (<[out_path := File EmptyString]> fs')
           (launched w ++ [(fdroid_args, repo_dir)]))).
  { unfold generate_index, bind at 1, path_exists.
    rewrite bool_decide_eq_true_2 by done. cbn [negb].
    unfold try_except, bind, run. rewrite Hrun. cbn [Z.eqb negb fs].
    rewrite Hfile, bool_decide_eq_true_2 by eauto. cbn [negb].
    unfold read_text, loads. cbn [fs]. rewrite Hfile, Hutf, Hgood. cbn [ret].
    unfold write_text. cbn [fs launched]. rewrite Hpath, Hparent, Htext.
    by destruct (fs' !! out_path) as [[c|]|]. }
  rewrite Hcopy. cbn [fst snd fs]. repeat split.
  - by eexists.
  - by intros (e & [= <-] & He).
  - apply lookup_insert_eq.
  - by rewrite (generate_index_returns w repo_dir out err content fs'
                  index_data Hdir Hrun Hfile Hutf Hgood).
Qed.

(** X17: without an [output_path], [generate_index] writes nothing itself:
    afterwards the file system is the one the tool left, or the one before
    the call when the tool did not run to its end or the directory is
    missing. *)
Theorem generate_index_writes_nothing (w : world) (repo_dir : Path) :
  fs (generate_index repo_dir None w).2 =
  match fs w !! repo_dir with
  | None => fs w
  | Some _ =>
      match subprocess_run fdroid_args repo_dir (fs w) with
      | Completed _ _ _ fs' => fs'
      | RunRaised _ => fs w
      end
  end.
Proof.
  unfold generate_index, bind at 1, path_exists.
  destruct (fs w !! repo_dir) as [n|] eqn:Hdir.
  - rewrite bool_decide_eq_true_2 by eauto. cbn [negb].
    unfold try_except, bind, run.
    destruct (subprocess_run fdroid_args repo_dir (fs w))
      as [rc out err fs'|e0]; cbn [fst snd].
    + destruct (negb (rc =? 0)); [done|].
      unfold path_exists. cbn [fs].
      destruct (bool_decide (is_Some (fs' !! index_path repo_dir)));
        cbn [negb]; [|done].
      unfold read_text. cbn [fs].
      destruct (fs' !! index_path repo_dir) as [[c|]|]; try done.
      destruct (valid_utf8 c); [|done].
      unfold loads. by destruct (json_loads c) as [d|v].
    + unfold generate_handlers.
      destruct (isinstance_exn e0 SubprocessError); [done|].
      by destruct (isinstance_exn e0 JSONDecodeError).
  - rewrite bool_decide_eq_false_2; [done|]. by intros [x Hx].
Qed.

End WithLibrary.

Lemma generate_index_never_leaks_witness :
  isinstance_exn
    (Exn OSError "[Errno 2] No such file or directory: 'fdroid'" None)
    SubprocessError = false /\
  isinstance_exn
    (Exn OSError "[Errno 2] No such file or directory: 'fdroid'" None)
    JSONDecodeError = false.
Proof.
  apply (@generate_index_never_leaks Examples.no_tool_lib Examples.repo_world
           ["srv"; "fdroid"] None).
  vm_compute. reflexivity.
Defined.

Lemma generate_index_tool_failures_witness :
  raises_mentioning
    (@generate_index (MoreExamples.silent_tool_lib 1 "no such repo")
       ["srv"; "fdroid"] None Examples.repo_world)
    IndexGenerationError "no such repo" /\
  (@generate_index (MoreExamples.silent_tool_lib 0 EmptyString)
     ["srv"; "fdroid"] None Examples.repo_world).1 =
  Raise (Exn IndexGenerationError "Index file not generated" None).
Proof.
  split.
  - apply (proj1 (@generate_index_tool_failures
                    (MoreExamples.silent_tool_lib 1 "no such repo")
                    Examples.repo_world ["srv"; "fdroid"] None 1 EmptyString
                    "no such repo" (fs Examples.repo_world)
                    ltac:(by eexists) eq_refl)).
    lia.
  - apply (proj1 (proj2 (@generate_index_tool_failures
                    (MoreExamples.silent_tool_lib 0 EmptyString)
                    Examples.repo_world ["srv"; "fdroid"] None 0 EmptyString
                    EmptyString (fs Examples.repo_world)
                    ltac:(by eexists) eq_refl)));
      reflexivity.
Defined.

Lemma generate_index_wraps_subprocess_error_witness :
  raises_mentioning
    (@generate_index MoreExamples.timeout_lib ["srv"; "fdroid"] None
       Examples.repo_world)
    IndexGenerationError "Command timed out after 5 seconds".
Proof.
  apply (@generate_index_wraps_subprocess_error MoreExamples.timeout_lib
           Examples.repo_world ["srv"; "fdroid"] None
           (Exn SubprocessError "Command timed out after 5 seconds" None));
    [by eexists | reflexivity | reflexivity].
Defined.

Lemma generate_index_writes_copy_witness :
  (@generate_index (Examples.writing_tool_lib 0 EmptyString "{}")
     ["srv"; "fdroid"] (Some ["srv"; "index.json"]) Examples.repo_world).1 =
    Ok (JObj ∅) /\
  fs (@generate_index (Examples.writing_tool_lib 0 EmptyString "{}")
        ["srv"; "fdroid"] (Some ["srv"; "index.json"]) Examples.repo_world).2
    !! ["srv"; "index.json"] = Some (File "{}").
Proof.
  destruct (@generate_index_writes_copy
              (Examples.writing_tool_lib 0 EmptyString "{}")
              Examples.repo_world ["srv"; "fdroid"] ["srv"; "index.json"]
              EmptyString EmptyString "{}"
              (<[index_path ["srv"; "fdroid"] := File "{}"]>
                 (<[ ["srv"; "fdroid"] // "repo" := Dir ]>
                    (fs Examples.repo_world)))
              (JObj ∅)) as [Hcopy _].
  - by eexists.
  - reflexivity.
  - vm_compute. reflexivity.
  - vm_compute. reflexivity.
  - vm_compute. reflexivity.
  - vm_compute. reflexivity.
  - vm_compute. reflexivity.
  - vm_compute. discriminate.
  - vm_compute. reflexivity.
  - rewrite Hcopy. split; [reflexivity|]. vm_compute. reflexivity.
Defined.

Lemma generate_index_copy_failure_witness :
  (@generate_index (Examples.writing_tool_lib 0 EmptyString "{}")
     ["srv"; "fdroid"] (Some ["nowhere"; "index.json"]) Examples.repo_world).1 =
  Raise (Exn OSError "No such file or directory: nowhere/index.json" None).
Proof.
  rewrite (@generate_index_copy_failure
             (Examples.writing_tool_lib 0 EmptyString "{}")
             Examples.repo_world ["srv"; "fdroid"] ["nowhere"; "index.json"]
             EmptyString EmptyString "{}"
             (<[index_path ["srv"; "fdroid"] := File "{}"]>
                (<[ ["srv"; "fdroid"] // "repo" := Dir ]>
                   (fs Examples.repo_world)))
             (JObj ∅)).
  - reflexivity.
  - by eexists.
  - reflexivity.
  - vm_compute. reflexivity.
  - vm_compute. reflexivity.
  - vm_compute. reflexivity.
  - vm_compute. reflexivity.
  - vm_compute. discriminate.
  - vm_compute. discriminate.
Defined.

Lemma generate_index_copy_unencodable_witness :
  raises
    (@generate_index MoreExamples.surrogate_index_lib
       ["srv"; "fdroid"] (Some ["srv"; "index.json"]) Examples.repo_world)
    UnicodeEncodeError /\
  (@generate_index MoreExamples.surrogate_index_lib
     ["srv"; "fdroid"] None Examples.repo_world).1 =
  Ok (JStr MoreExamples.lone_surrogate).
Proof.
  destruct (@generate_index_copy_unencodable
              MoreExamples.surrogate_index_lib
              Examples.repo_world ["srv"; "fdroid"] ["srv"; "index.json"]
              EmptyString EmptyString MoreExamples.escaped_surrogate_text
              (<[index_path ["srv"; "fdroid"] :=
                   File MoreExamples.escaped_surrogate_text]>
                 (<[ ["srv"; "fdroid"] // "repo" := Dir ]>
                    (fs Examples.repo_world)))
              (JStr MoreExamples.lone_surrogate))
    as (Hraise & _ & _ & Hnone).
  - by eexists.
  - reflexivity.
  - vm_compute. reflexivity.
  - vm_compute. reflexivity.
  - vm_compute. reflexivity.
  - vm_compute. reflexivity.
  - vm_compute. reflexivity.
  - vm_compute. discriminate.
  - vm_compute. reflexivity.
  - by split.
Defined.

End GenerateMore.

(** ** [create_minimal_index] and [_format_app_entry] *)

Module IndexMore.
Import Index IndexFacts.

Lemma has_package_id_of (app : gmap string json) :
  has_package_id app = true -> exists k, package_id_of app = Some k /\
                                         package_key app = Ok k.
Proof.
  intros [k Hk]%package_key_string. exists k. unfold package_id_of.
  by rewrite Hk.
Qed.

Lemma dict_comprehension_app (value : gmap string json -> json)
    (l1 l2 : list (gmap string json)) (acc : gmap string json) :
  dict_comprehension value (l1 ++ l2) acc =
  match dict_comprehension value l1 acc with
  | Ok m => dict_comprehension value l2 m
  | Raise e => Raise e
  end.
Proof.
  revert acc. induction l1 as [|a l1 IH]; intros acc; [done|].
  cbn [app dict_comprehension]. by destruct (package_key a).
Qed.

Lemma create_minimal_index_inv (timestamp : Z)
    (repo_name repo_description : string) (apps : list (gmap string json))
    (index : json) :
  create_minimal_index timestamp repo_name repo_description apps = Ok index ->
  exists apps_map packages_map,
    dict_comprehension _format_app_entry apps ∅ = Ok apps_map /\
    dict_comprehension (fun _ => JList []) apps ∅ = Ok packages_map /\
    index =
    JObj (<["repo" :=
            JObj (<["name" := localized (JStr repo_name)]>
                 (<["description" := localized (JStr repo_description)]>
                 (<["timestamp" := JInt timestamp]>
                 (<["version" := JInt schema_version]> ∅))))]>
         (<["apps" := JObj apps_map]>
         (<["packages" := JObj packages_map]> ∅))).
Proof.
  unfold create_minimal_index.
  destruct (dict_comprehension _format_app_entry apps ∅) as [am|e]; [|done].
  destruct (dict_comprehension (fun _ => JList []) apps ∅) as [pm|e]; [|done].
  intros [= <-]. by exists am, pm.
Qed.

Lemma package_ids_cons (app : gmap string json)
    (apps : list (gmap string json)) :
  package_ids (app :: apps) =
  match package_id_of app with
  | Some k => k :: package_ids apps
  | None => package_ids apps
  end.
Proof. done. Qed.

Lemma dict_comprehension_swap (value : gmap string json -> json)
    (l l' : list (gmap string json)) :
  l ≡ₚ l' ->
  Forall (fun app => has_package_id app = true) l ->
  NoDup (package_ids l) ->
  forall acc, dict_comprehension value l' acc = dict_comprehension value l acc.
Proof.
  induction 1 as [|x l l' Hperm IH|x y l|l l' l'' Hp1 IH1 Hp2 IH2];
    intros Hall Hnodup acc.
  - done.
  - apply Forall_cons in Hall as [Hx Hall].
    destruct (has_package_id_of x Hx) as (k & Hid & Hkey).
    rewrite package_ids_cons, Hid in Hnodup.
    apply NoDup_cons in Hnodup as [_ Hnodup].
    cbn [dict_comprehension]. rewrite Hkey. by apply IH.
  - apply Forall_cons in Hall as [Hy Hall].
    apply Forall_cons in Hall as [Hx Hall].
    destruct (has_package_id_of x Hx) as (kx & Hidx & Hkeyx).
    destruct (has_package_id_of y Hy) as (ky & Hidy & Hkeyy).
    rewrite !package_ids_cons, Hidx, Hidy in Hnodup.
    apply NoDup_cons in Hnodup as [Hne _].
    cbn [dict_comprehension]. rewrite Hkeyx, Hkeyy.
    rewrite insert_insert_ne; [done|]. intros ->. apply Hne. by left.
  - rewrite IH2, IH1; [done..| |].
    + by rewrite <- Hp1.
    + unfold package_ids. by rewrite <- Hp1.
Qed.

Lemma dict_comprehension_dom_ids (value : gmap string json -> json)
    (apps : list (gmap string json)) (acc m : gmap string json) :
  dict_comprehension value apps acc = Ok m ->
  dom m = dom acc ∪ list_to_set (package_ids apps).
Proof.
  revert acc.
  induction apps as [|app apps IH]; intros acc; cbn [dict_comprehension].
  - intros [= <-]. change (package_ids []) with (@nil string).
    cbn [list_to_set]. by rewrite union_empty_r_L.
  - rewrite package_ids_cons. unfold package_id_of at 1.
    destruct (package_key app) as [k|e]; [|done].
    intros Hrun. rewrite (IH _ Hrun), dom_insert_L. cbn [list_to_set].
    by rewrite (comm_L (∪) {[k]} (dom acc)), <- (assoc_L (∪)).
Qed.

Lemma package_ids_length (apps : list (gmap string json)) :
  Forall (fun app => has_package_id app = true) apps ->
  length (package_ids apps) = length apps.
Proof.
  induction 1 as [|app apps Happ _ IH]; [done|].
  destruct (has_package_id_of app Happ) as (k & Hid & _).
  rewrite package_ids_cons, Hid. cbn [length]. by rewrite IH.
Qed.

(** X18: when a record has no [package_id] and every record before it has
    one, [create_minimal_index] raises [KeyError] for that key and returns
    no index, whatever follows the record. *)
Theorem create_minimal_index_missing_id (timestamp : Z)
    (repo_name repo_description : string)
    (before after : list (gmap string json)) (this : gmap string json) :
  Forall (fun app => has_package_id app = true) before ->
  this !! "package_id" = None ->
  create_minimal_index timestamp repo_name repo_description
    (before ++ this :: after) =
  Raise (Exn KeyError "'package_id'" None).
Proof.
  intros Hbefore Hnone. unfold create_minimal_index.
  rewrite dict_comprehension_app.
  destruct (dict_comprehension_completes _format_app_entry before ∅ Hbefore)
    as [m ->].
  cbn [dict_comprehension]. unfold package_key. by rewrite Hnone.
Qed.

Lemma create_minimal_index_missing_id_witness :
  create_minimal_index 1700000000000 "Test Repo" "Test"
    [Examples.app_one; MoreExamples.anonymous_app; Examples.app_two] =
  Raise (Exn KeyError "'package_id'" None).
Proof.
  apply (create_minimal_index_missing_id 1700000000000 "Test Repo" "Test"
           [Examples.app_one] [Examples.app_two] MoreExamples.anonymous_app).
  - repeat constructor.
  - reflexivity.
Defined.

(** X19: adding one more record at the end of [apps] puts its formatted
    entry under its package id in [apps] and an empty list under it in
    [packages], over what the shorter list gave, and leaves [repo] as it
    is. *)
Theorem create_minimal_index_append (timestamp : Z)
    (repo_name repo_description : string) (apps : list (gmap string json))
    (this : gmap string json) (k : string) (index : json)
    (apps_map packages_map : gmap string json) :
  create_minimal_index timestamp repo_name repo_description apps = Ok index ->
  obj_get "apps" index = Some (JObj apps_map) ->
  obj_get "packages" index = Some (JObj packages_map) ->
  package_key this = Ok k ->
  exists index',
    create_minimal_index timestamp repo_name repo_description (apps ++ [this]) =
      Ok index' /\
    obj_get "apps" index' =
      Some (JObj (<[k := _format_app_entry this]> apps_map)) /\
    obj_get "packages" index' = Some (JObj (<[k := JList []]> packages_map)) /\
    obj_get "repo" index' = obj_get "repo" index.
Proof.
  intros (am & pm & Ha & Hp & ->)%create_minimal_index_inv Hga Hgp Hkey.
  change (Some (JObj am) = Some (JObj apps_map)) in Hga.
  change (Some (JObj pm) = Some (JObj packages_map)) in Hgp.
  injection Hga as <-. injection Hgp as <-.
  eexists. split.
  { apply create_minimal_index_shape.
    - rewrite dict_comprehension_app, Ha. cbn [dict_comprehension].
      by rewrite Hkey.
    - rewrite dict_comprehension_app, Hp. cbn [dict_comprehension].
      by rewrite Hkey. }
  by repeat split.
Qed.

Lemma create_minimal_index_append_witness :
  exists index',
    create_minimal_index 1700000000000 "Test Repo" "Test"
      ([Examples.app_one] ++ [Examples.app_two]) = Ok index' /\
    obj_get "apps" index' =
      Some (JObj (<["dk.test.app2" := _format_app_entry Examples.app_two]>
                    {["dk.test.app1" := _format_app_entry Examples.app_one]})) /\
    obj_get "packages" index' =
      Some (JObj (<["dk.test.app2" := JList []]>
                    {["dk.test.app1" := JList []]})) /\
    obj_get "repo" index' =
      obj_get "repo"
        (JObj (<["repo" :=
                JObj (<["name" := localized (JStr "Test Repo")]>
                     (<["description" := localized (JStr "Test")]>
                     (<["timestamp" := JInt 1700000000000]>
                     (<["version" := JInt schema_version]> ∅))))]>
             (<["apps" := JObj {["dk.test.app1" :=
                                   _format_app_entry Examples.app_one]}]>
             (<["packages" := JObj {["dk.test.app1" := JList []]}]> ∅)))).
Proof.
  apply (create_minimal_index_append 1700000000000 "Test Repo" "Test"
           [Examples.app_one] Examples.app_two "dk.test.app2");
    reflexivity.
Defined.

(** X20: when the records all carry a package id and no two share one, the
    index does not depend on the order of [apps]. *)
Theorem create_minimal_index_permutation (timestamp : Z)
    (repo_name repo_description : string) (apps apps' : list (gmap string json)) :
  Forall (fun app => has_package_id app = true) apps ->
  NoDup (package_ids apps) ->
  apps ≡ₚ apps' ->
  create_minimal_index timestamp repo_name repo_description apps' =
  create_minimal_index timestamp repo_name repo_description apps.
Proof.
  intros Hall Hnodup Hperm. unfold create_minimal_index.
  by rewrite !(dict_comprehension_swap _ apps apps' Hperm Hall Hnodup).
Qed.

Lemma create_minimal_index_permutation_witness :
  create_minimal_index 1700000000000 "Test Repo" "Test"
    [Examples.app_two; Examples.app_one] =
  create_minimal_index 1700000000000 "Test Repo" "Test"
    [Examples.app_one; Examples.app_two].
Proof.
  apply create_minimal_index_permutation.
  - repeat constructor.
  - by apply (bool_decide_unpack _).
  - apply perm_swap.
Defined.

(** X21: when the records all carry a package id and no two share one,
    [apps] and [packages] have exactly as many entries as there are
    records. *)
Theorem create_minimal_index_size (timestamp : Z)
    (repo_name repo_description : string) (apps : list (gmap string json)) :
  Forall (fun app => has_package_id app = true) apps ->
  NoDup (package_ids apps) ->
  exists index apps_map packages_map,
    create_minimal_index timestamp repo_name repo_description apps = Ok index /\
    obj_get "apps" index = Some (JObj apps_map) /\
    obj_get "packages" index = Some (JObj packages_map) /\
    size apps_map = length apps /\
    size packages_map = length apps.
Proof.
  intros Hall Hnodup.
  destruct (create_minimal_index_completes timestamp repo_name
              repo_description apps Hall)
    as (index & am & pm & Hrun & Ha & Hp & _ & _ & _ & _ & Hga & Hgp).
  exists index, am, pm. repeat split; try done.
  - rewrite <- size_dom, (dict_comprehension_dom_ids _ _ _ _ Ha).
    rewrite dom_empty_L, union_empty_l_L, size_list_to_set by done.
    by apply package_ids_length.
  - rewrite <- size_dom, (dict_comprehension_dom_ids _ _ _ _ Hp).
    rewrite dom_empty_L, union_empty_l_L, size_list_to_set by done.
    by apply package_ids_length.
Qed.

Lemma create_minimal_index_size_witness :
  exists index apps_map packages_map,
    create_minimal_index 1700000000000 "Test Repo" "Test"
      [Examples.app_one; Examples.app_two] = Ok index /\
    obj_get "apps" index = Some (JObj apps_map) /\
    obj_get "packages" index = Some (JObj packages_map) /\
    size apps_map = 2%nat /\
    size packages_map = 2%nat.
Proof.
  apply (create_minimal_index_size 1700000000000 "Test Repo" "Test"
           [Examples.app_one; Examples.app_two]).
  - repeat constructor.
  - by apply (bool_decide_unpack _).
Defined.

(** X22: a formatted entry has exactly the six keys [name], [summary],
    [description], [license], [categories] and [suggestedVersionCode],
    whatever fields the record has, and its [name], [summary] and
    [description] are maps with the single key "en-US". *)
Theorem format_app_entry_keys (app : gmap string json) :
  obj_keys (_format_app_entry app) =
    {["name"; "summary"; "description"; "license"; "categories";
      "suggestedVersionCode"]} /\
  (forall field, field ∈ ["name"; "summary"; "description"] ->
     exists localized_map,
       obj_get field (_format_app_entry app) = Some localized_map /\
       obj_keys localized_map = {["en-US"]}).
Proof.
  split.
  - unfold _format_app_entry, obj_keys.
    rewrite !dom_insert_L, dom_empty_L. set_solver.
  - intros field Hfield.
    repeat (apply elem_of_cons in Hfield as [->|Hfield]);
      [..|by apply elem_of_nil in Hfield];
      (eexists; split; [reflexivity|]);
      unfold localized, obj_keys; by rewrite dom_singleton_L.
Qed.

Lemma format_app_entry_keys_witness :
  exists localized_map,
    obj_get "summary" (_format_app_entry Examples.app_one) =
      Some localized_map /\
    obj_keys localized_map = {["en-US"]}.
Proof.
  apply (proj2 (format_app_entry_keys Examples.app_one) "summary").
  by apply (bool_decide_unpack _).
Defined.

(** X23: an index returned by [create_minimal_index] has exactly the keys
    [repo], [apps] and [packages], and its [repo] has exactly the keys
    [name], [description], [timestamp] and [version]. *)
Theorem create_minimal_index_top_level_keys (timestamp : Z)
    (repo_name repo_description : string) (apps : list (gmap string json))
    (index : json) :
  create_minimal_index timestamp repo_name repo_description apps = Ok index ->
  obj_keys index = {["repo"; "apps"; "packages"]} /\
  exists repo,
    obj_get "repo" index = Some repo /\
    obj_keys repo = {["name"; "description"; "timestamp"; "version"]}.
Proof.
  intros (am & pm & _ & _ & ->)%create_minimal_index_inv. split.
  - unfold obj_keys. rewrite !dom_insert_L, dom_empty_L. set_solver.
  - eexists. split; [reflexivity|].
    unfold obj_keys. rewrite !dom_insert_L, dom_empty_L. set_solver.
Qed.

Lemma create_minimal_index_top_level_keys_witness :
  obj_keys (JObj (<["repo" :=
              JObj (<["name" := localized (JStr "Empty Repo")]>
                   (<["description" := localized (JStr "No apps yet")]>
                   (<["timestamp" := JInt 1700000000000]>
                   (<["version" := JInt schema_version]> ∅))))]>
           (<["apps" := JObj ∅]> (<["packages" := JObj ∅]> ∅)))) =
  {["repo"; "apps"; "packages"]}.
Proof.
  apply (create_minimal_index_top_level_keys 1700000000000 "Empty Repo"
           "No apps yet" []).
  reflexivity.
Defined.

End IndexMore.
